(** * aws_sso_example.py: the credential-error normalizer and three of the
      operations it decorates

    A shallow embedding of [examples/credential-modernization/aws_sso_example.py].

    Python objects are dynamically typed, so the embedding has one type of
    plain data ([value]), one of exception objects ([exception]) and one of
    run-time objects that can be called or awaited ([pyobj]).  A coroutine is
    a state transformer over the process' surroundings ([world]) that ends in
    a returned object or in a raised exception; the effects survive a raise,
    as they do in Python.  The cloud SDK (aioboto3/botocore) is an external
    collaborator: it is a parameter of the development, answering each
    [request] with a result or an exception.

    Strings are byte strings; the source file is UTF-8, so is this one. *)

From Stdlib Require Import String Ascii List Bool ZArith Lia.
Import ListNotations.
Local Open Scope string_scope.
Local Set Warnings "-register-all".

(** ** Plain data: what the SDK takes and returns *)

Inductive value : Type :=
| VNone
| VBool (b : bool)
| VInt (z : Z)
| VStr (s : string)
| VList (items : list value)
| VDict (entries : list (string * value)).

Definition dict := list (string * value).

(** [d.get(key)] / [key in d] on the entries of a dict. *)
Fixpoint dict_lookup (d : dict) (key : string) : option value :=
  match d with
  | [] => None
  | (k, v) :: rest => if String.eqb k key then Some v else dict_lookup rest key
  end.

(** Python truth value of plain data. *)
Definition truthy (v : value) : bool :=
  match v with
  | VNone => false
  | VBool b => b
  | VInt z => negb (Z.eqb z 0)
  | VStr s => negb (String.eqb s "")
  | VList l => match l with [] => false | _ => true end
  | VDict d => match d with [] => false | _ => true end
  end.

(** [v == 'literal']: a str equals only an equal str. *)
Definition eq_str (v : value) (literal : string) : bool :=
  match v with
  | VStr s => String.eqb s literal
  | _ => false
  end.

(** ** Exception classes and exception objects *)

Inductive exc_class : Type :=
| BaseException
| Exception
| CancelledError          (* asyncio.CancelledError *)
| LookupError
| KeyError
| TypeError
| AttributeError
| BotoCoreError           (* botocore.exceptions *)
| TokenRetrievalError
| ClientError
| AWSCredentialError      (* class AWSCredentialError(Exception) *)
| Subclass (name : string) (base : exc_class).

(** The class followed by its bases, most specific first. *)
Fixpoint mro (c : exc_class) : list exc_class :=
  match c with
  | BaseException => [BaseException]
  | Exception => [Exception; BaseException]
  | CancelledError => [CancelledError; BaseException]
  | LookupError => [LookupError; Exception; BaseException]
  | KeyError => [KeyError; LookupError; Exception; BaseException]
  | TypeError => [TypeError; Exception; BaseException]
  | AttributeError => [AttributeError; Exception; BaseException]
  | BotoCoreError => [BotoCoreError; Exception; BaseException]
  | TokenRetrievalError =>
      [TokenRetrievalError; BotoCoreError; Exception; BaseException]
  | ClientError => [ClientError; Exception; BaseException]
  | AWSCredentialError => [AWSCredentialError; Exception; BaseException]
  | Subclass _ base => c :: mro base
  end.

Fixpoint exc_class_eqb (c d : exc_class) : bool :=
  match c, d with
  | BaseException, BaseException
  | Exception, Exception
  | CancelledError, CancelledError
  | LookupError, LookupError
  | KeyError, KeyError
  | TypeError, TypeError
  | AttributeError, AttributeError
  | BotoCoreError, BotoCoreError
  | TokenRetrievalError, TokenRetrievalError
  | ClientError, ClientError
  | AWSCredentialError, AWSCredentialError => true
  | Subclass n b, Subclass n' b' => String.eqb n n' && exc_class_eqb b b'
  | _, _ => false
  end.

Definition issubclass (c d : exc_class) : bool :=
  existsb (exc_class_eqb d) (mro c).

(** An exception object: its class, the arguments it was built with, and the
    [response] attribute that botocore's [ClientError.__init__] sets. *)
Record exception : Type := mk_exception {
  exc_type : exc_class;
  exc_args : list value;
  exc_response : option value
}.

(** What an [except C] clause tests. *)
Definition isinstance (e : exception) (c : exc_class) : bool :=
  issubclass (exc_type e) c.

Definition new_exception (c : exc_class) (msg : string) : exception :=
  mk_exception c [VStr msg] None.

(** [KeyError(key)], as raised by a failed dict subscript. *)
Definition key_error (key : string) : exception :=
  new_exception KeyError key.

(** ** Outcomes *)

Inductive outcome (A : Type) : Type :=
| Returned (a : A)
| Raised (e : exception).

Arguments Returned {A} a.
Arguments Raised {A} e.

(** [container[key]] with a str key. *)
Definition subscript (container : value) (key : string) : outcome value :=
  match container with
  | VDict d =>
      match dict_lookup d key with
      | Some v => Returned v
      | None => Raised (key_error key)
      end
  | VStr _ =>
      Raised (new_exception TypeError "string indices must be integers")
  | VList _ =>
      Raised (new_exception TypeError
                "list indices must be integers or slices, not str")
  | _ => Raised (new_exception TypeError "object is not subscriptable")
  end.

(** [mapping.get(key)]: the entry, or None when there is none. *)
Definition dict_get (mapping : value) (key : string) : outcome value :=
  match mapping with
  | VDict d =>
      match dict_lookup d key with
      | Some v => Returned v
      | None => Returned VNone
      end
  | _ => Raised (new_exception AttributeError "object has no attribute 'get'")
  end.

(** [e.response]. *)
Definition getattr_response (e : exception) : outcome value :=
  match exc_response e with
  | Some r => Returned r
  | None =>
      Raised (new_exception AttributeError "object has no attribute 'response'")
  end.

(** The expression [e.response['Error']['Code']], which the source evaluates
    in each of its [except ClientError as e] clauses. *)
Definition response_error_code (e : exception) : outcome value :=
  match getattr_response e with
  | Raised x => Raised x
  | Returned response =>
      match subscript response "Error" with
      | Raised x => Raised x
      | Returned error => subscript error "Code"
      end
  end.

(** ** The module, over its surroundings *)

Section AwsSsoExample.

(** The state of everything outside the process (the provider's services,
    the credential cache, the clock). *)
Variable cloud_state : Type.

(** [os.environ] when the module is imported. *)
Variable os_environ : string -> option string.

(** Which context manager an [async with] enters. *)
Inductive handle : Type :=
| Client (service : string)        (* session.client(service) *)
| Resource (service : string).     (* session.resource(service) *)

(** What the module asks of its collaborators. *)
Inductive request : Type :=
| NewSession (profile_name : string)   (* aioboto3.Session(profile_name=...) *)
| Aenter (h : handle)                  (* entering [async with h as ...] *)
| Aexit (h : handle) (exc : option exception)   (* leaving it *)
| ApiCall (service operation : string) (params : dict)
                                   (* await client.operation(params...) *)
| GetTable (table_name : value)    (* await dynamodb.Table(table_name) *)
| TableCall (table_name : value) (operation : string) (params : dict)
                                   (* await table.operation(params...) *)
| TimeMillis.                          (* int(time.time() * 1000) *)

(** The collaborators' answers: a result or a raised exception, and the
    state they are left in. *)
Variable external :
  request -> cloud_state -> outcome value * cloud_state.

Record world : Type := mk_world {
  stderr : string;          (* everything written to sys.stderr so far *)
  cloud : cloud_state
}.

(** A running coroutine. *)
Definition coroutine (A : Type) : Type := world -> outcome A * world.

Definition ret {A} (a : A) : coroutine A := fun w => (Returned a, w).

Definition raise {A} (e : exception) : coroutine A := fun w => (Raised e, w).

Definition bind {A B} (c : coroutine A) (k : A -> coroutine B) : coroutine B :=
  fun w =>
    match c w with
    | (Returned a, w1) => k a w1
    | (Raised e, w1) => (Raised e, w1)
    end.

Notation "x <- c ;; k" := (bind c (fun x => k))
  (at level 61, c at next level, right associativity).
Notation "c ;;; k" := (bind c (fun _ => k))
  (at level 61, right associativity).

(** An expression that can raise but has no other effect. *)
Definition lift {A} (o : outcome A) : coroutine A := fun w => (o, w).

(** [try: body / except ...: handler]: the handler sees the world as the
    body left it. *)
Definition try_except {A} (body : coroutine A)
    (handler : exception -> coroutine A) : coroutine A :=
  fun w =>
    match body w with
    | (Returned a, w1) => (Returned a, w1)
    | (Raised e, w1) => handler e w1
    end.

Definition newline : string := String (ascii_of_nat 10) EmptyString.

(** [print(text, file=sys.stderr)]. *)
Definition print_stderr (text : string) : coroutine unit :=
  fun w => (Returned tt, mk_world (stderr w ++ text ++ newline) (cloud w)).

(** Awaiting a collaborator. *)
Definition perform (r : request) : coroutine value :=
  fun w =>
    let (o, c) := external r (cloud w) in (o, mk_world (stderr w) c).

(** ** Run-time objects *)

(** The positional and the keyword arguments of a call. *)
Record arguments : Type := mk_arguments {
  positional : list value;
  keywords : dict
}.

Inductive pyobj : Type :=
| Data (v : value)
| AsyncFunction (body : arguments -> coroutine pyobj)
    (* what [async def] defines: calling it starts nothing *)
| CoroutineObject (run : coroutine pyobj).
    (* what calling an [async def] returns: awaitable, not callable *)

(** Calling [callee] with the arguments [a]. *)
Definition py_call (callee : pyobj) (a : arguments) : outcome pyobj :=
  match callee with
  | AsyncFunction body => Returned (CoroutineObject (body a))
  | CoroutineObject _ =>
      Raised (new_exception TypeError "'coroutine' object is not callable")
  | Data _ => Raised (new_exception TypeError "object is not callable")
  end.

(** [await awaitable]. *)
Definition py_await (awaitable : pyobj) : coroutine pyobj :=
  match awaitable with
  | CoroutineObject run => run
  | _ =>
      raise (new_exception TypeError
               "object can't be used in 'await' expression")
  end.

(** ** Error handling utilities (source lines 24-60) *)

(** [AWS_PROFILE = os.getenv("AWS_PROFILE", "my-dev")] *)
Definition AWS_PROFILE : string :=
  match os_environ "AWS_PROFILE" with
  | Some profile => profile
  | None => "my-dev"
  end.

Definition session_expired_msg : string :=
  "❌ AWS SSO session expired!" ++ newline ++
  "Please run: aws sso login --profile " ++ AWS_PROFILE.

Definition credentials_expired_msg : string :=
  "❌ Temporary credentials expired!" ++ newline ++
  "Please run: aws sso login --profile " ++ AWS_PROFILE.

(** The expression [await func(...)] on the arguments [a]. *)
Definition await_call (func : pyobj) (a : arguments) : coroutine pyobj :=
  awaitable <- lift (py_call func a) ;; py_await awaitable.

(** The closure [wrapper] that the body of [handle_aws_errors] defines over
    [func]. *)
Definition wrapper (func : pyobj) (a : arguments) : coroutine pyobj :=
  try_except
    (await_call func a)
    (fun e =>
       if isinstance e TokenRetrievalError then
         let error_msg := session_expired_msg in
         print_stderr error_msg ;;;
         raise (new_exception AWSCredentialError error_msg)
       else if isinstance e ClientError then
         code <- lift (response_error_code e) ;;
         if eq_str code "ExpiredToken" then
           let error_msg := credentials_expired_msg in
           print_stderr error_msg ;;;
           raise (new_exception AWSCredentialError error_msg)
         else
           raise e
       else
         raise e).

(** The value of the call [handle_aws_errors(func)].  The source declares
    [handle_aws_errors] with [async def], so the call runs none of its body:
    it yields a coroutine object, whose body, once awaited, defines [wrapper]
    and returns it. *)
Definition handle_aws_errors (func : pyobj) : pyobj :=
  CoroutineObject (ret (AsyncFunction (wrapper func))).

(** [@decorator] over a definition rebinds the name to [decorator(definition)]. *)
Definition decorated (decorator : pyobj -> pyobj) (definition : pyobj) : pyobj :=
  decorator definition.

(** ** Calling conventions of the operations *)

Definition dict_remove (d : dict) (key : string) : dict :=
  filter (fun kv => negb (String.eqb (fst kv) key)) d.

(** Binding the arguments of a call to required parameters: positional
    arguments first, then keywords; None when Python raises TypeError (too
    many or too few arguments, a parameter given twice, an unknown keyword). *)
Fixpoint bind_params (params : list string) (pos : list value) (kw : dict)
    : option (list value) :=
  match params with
  | [] =>
      match pos, kw with
      | [], [] => Some []
      | _, _ => None
      end
  | p :: ps =>
      match pos with
      | v :: pos' =>
          match dict_lookup kw p with
          | Some _ => None
          | None => option_map (cons v) (bind_params ps pos' kw)
          end
      | [] =>
          match dict_lookup kw p with
          | Some v => option_map (cons v) (bind_params ps [] (dict_remove kw p))
          | None => None
          end
      end
  end.

Definition bad_call : exception :=
  new_exception TypeError "arguments do not match the signature".

(** Leaving an [async with h] block that ended as [ended]: [__aexit__] runs
    on both ways out; a true result swallows the exception, and the function
    then runs off its end and returns None. *)
Definition leave (h : handle) (ended : outcome pyobj * world)
    : outcome pyobj * world :=
  match ended with
  | (Returned r, w1) => (perform (Aexit h None) ;;; ret r) w1
  | (Raised e, w1) =>
      (swallow <- perform (Aexit h (Some e)) ;;
       if truthy swallow then ret (Data VNone) else raise e) w1
  end.

(** [async with h as name: block], where the block is the rest of the
    function and ends in the function's return value. *)
Definition async_with (h : handle) (block : coroutine pyobj) : coroutine pyobj :=
  perform (Aenter h) ;;; (fun w => leave h (block w)).

(** ** AWS identity information (source lines 67-82) *)

(** The function that [async def get_caller_identity()] defines. *)
Definition get_caller_identity_def : pyobj :=
  AsyncFunction (fun a =>
    match bind_params [] (positional a) (keywords a) with
    | Some [] =>
        perform (NewSession AWS_PROFILE) ;;;
        async_with (Client "sts")
          (identity <- perform (ApiCall "sts" "get_caller_identity" []) ;;
           account <- lift (subscript identity "Account") ;;
           arn <- lift (subscript identity "Arn") ;;
           user_id <- lift (subscript identity "UserId") ;;
           ret (Data (VDict [("account_id", account);
                             ("user_arn", arn);
                             ("user_id", user_id);
                             ("profile", VStr AWS_PROFILE)])))
    | _ => raise bad_call
    end).

(** The module-level name [get_caller_identity], after [@handle_aws_errors]. *)
Definition get_caller_identity : pyobj :=
  decorated handle_aws_errors get_caller_identity_def.

(** ** DynamoDB (source lines 179-187) *)

(** The function that [async def get_dynamodb_item(table_name, key)] defines. *)
Definition get_dynamodb_item_def : pyobj :=
  AsyncFunction (fun a =>
    match bind_params ["table_name"; "key"] (positional a) (keywords a) with
    | Some [table_name; key] =>
        perform (NewSession AWS_PROFILE) ;;;
        async_with (Resource "dynamodb")
          (perform (GetTable table_name) ;;;
           response <- perform (TableCall table_name "get_item" [("Key", key)]) ;;
           item <- lift (dict_get response "Item") ;;
           ret (Data item))
    | _ => raise bad_call
    end).

Definition get_dynamodb_item : pyobj :=
  decorated handle_aws_errors get_dynamodb_item_def.

(** ** CloudWatch Logs (source lines 277-313) *)

(** The [except ClientError as e] clause of both [try] statements of
    [put_cloudwatch_log_event]: anything but 'ResourceAlreadyExistsException'
    is raised again. *)
Definition unless_already_exists (e : exception) : coroutine value :=
  if isinstance e ClientError then
    code <- lift (response_error_code e) ;;
    if negb (eq_str code "ResourceAlreadyExistsException") then raise e
    else ret VNone
  else
    raise e.

(** The function that
    [async def put_cloudwatch_log_event(log_group, log_stream, message)]
    defines. *)
Definition put_cloudwatch_log_event_def : pyobj :=
  AsyncFunction (fun a =>
    match bind_params ["log_group"; "log_stream"; "message"]
            (positional a) (keywords a) with
    | Some [log_group; log_stream; message] =>
        perform (NewSession AWS_PROFILE) ;;;
        async_with (Client "logs")
          (try_except
             (perform (ApiCall "logs" "create_log_group"
                         [("logGroupName", log_group)]))
             unless_already_exists ;;;
           try_except
             (perform (ApiCall "logs" "create_log_stream"
                         [("logGroupName", log_group);
                          ("logStreamName", log_stream)]))
             unless_already_exists ;;;
           timestamp <- perform TimeMillis ;;
           perform (ApiCall "logs" "put_log_events"
                      [("logGroupName", log_group);
                       ("logStreamName", log_stream);
                       ("logEvents",
                        VList [VDict [("timestamp", timestamp);
                                      ("message", message)]])]) ;;;
           ret (Data VNone))
    | _ => raise bad_call
    end).

Definition put_cloudwatch_log_event : pyobj :=
  decorated handle_aws_errors put_cloudwatch_log_event_def.

End AwsSsoExample.

Arguments mk_world {cloud_state} stderr cloud.
Arguments stderr {cloud_state} w.
Arguments cloud {cloud_state} w.
Arguments ret {cloud_state A} a w.
Arguments raise {cloud_state A} e w.
Arguments bind {cloud_state A B} c k w.
Arguments lift {cloud_state A} o w.
Arguments try_except {cloud_state A} body handler w.
Arguments print_stderr {cloud_state} text w.
Arguments perform {cloud_state} external r w.
Arguments Data {cloud_state} v.
Arguments AsyncFunction {cloud_state} body.
Arguments CoroutineObject {cloud_state} run.
Arguments py_call {cloud_state} callee a.
Arguments py_await {cloud_state} awaitable w.
Arguments await_call {cloud_state} func a w.
Arguments wrapper {cloud_state} os_environ func a w.
Arguments handle_aws_errors {cloud_state} os_environ func.
Arguments decorated {cloud_state} decorator definition.
Arguments leave {cloud_state} external h ended.
Arguments async_with {cloud_state} external h block w.
Arguments unless_already_exists {cloud_state} e w.
Arguments get_caller_identity_def {cloud_state} os_environ external.
Arguments get_caller_identity {cloud_state} os_environ external.
Arguments get_dynamodb_item_def {cloud_state} os_environ external.
Arguments get_dynamodb_item {cloud_state} os_environ external.
Arguments put_cloudwatch_log_event_def {cloud_state} os_environ external.
Arguments put_cloudwatch_log_event {cloud_state} os_environ external.

Notation "x <- c ;; k" := (bind c (fun x => k))
  (at level 61, c at next level, right associativity).
Notation "c ;;; k" := (bind c (fun _ => k))
  (at level 61, right associativity).

(** ** Measures used in the statements *)

(** Number of line ends in a text. *)
Fixpoint count_newlines (text : string) : nat :=
  match text with
  | EmptyString => 0
  | String c rest =>
      (if Ascii.eqb c (ascii_of_nat 10) then 1 else 0) + count_newlines rest
  end.

(** The key that [e.response['Error']['Code']] fails to find in the response
    [d], when it is a missing key that stops it. *)
Definition missing_code_key (d : dict) : option string :=
  match dict_lookup d "Error" with
  | None => Some "Error"
  | Some (VDict error) =>
      match dict_lookup error "Code" with
      | None => Some "Code"
      | Some _ => None
      end
  | Some _ => None
  end.

(** An outcome of creating a log group or stream that
    [put_cloudwatch_log_event] goes on from: it was created, or the provider
    reported 'ResourceAlreadyExistsException'. *)
Definition created_or_exists (o : outcome value) : bool :=
  match o with
  | Returned _ => true
  | Raised e =>
      isinstance e ClientError &&
      match response_error_code e with
      | Returned code => eq_str code "ResourceAlreadyExistsException"
      | Raised _ => false
      end
  end.

(** ** Sample surroundings, operations and failures *)

Definition no_arguments : arguments := mk_arguments [] [].

(** AWS_PROFILE is not set: the profile is the default, "my-dev". *)
Definition bare_environ : string -> option string := fun _ => None.

Definition staging_environ : string -> option string :=
  fun name => if String.eqb name "AWS_PROFILE" then Some "staging" else None.

(** A cloud that only keeps the journal of the requests it received. *)
Definition journal : Type := list request.

Definition recording (answer : request -> outcome value)
    : request -> journal -> outcome value * journal :=
  fun r seen => (answer r, (seen ++ [r])%list).

Definition fresh_world : world journal := mk_world "" [].

Definition returning {cloud_state} (v : value) : pyobj cloud_state :=
  AsyncFunction (fun _ => ret (Data v)).

Definition failing {cloud_state} (e : exception) : pyobj cloud_state :=
  AsyncFunction (fun _ => raise e).

(** botocore's [ClientError(error_response, operation_name)] for a parsed
    error response with a code and a message. *)
Definition client_error (code message operation_name : string) : exception :=
  mk_exception ClientError
    [VStr ("An error occurred (" ++ code ++ ") when calling the " ++
           operation_name ++ " operation: " ++ message)]
    (Some (VDict [("Error", VDict [("Code", VStr code);
                                    ("Message", VStr message)])])).

(** A [ClientError] built on an error response without an 'Error' entry. *)
Definition malformed_client_error : exception :=
  mk_exception ClientError
    [VStr "An error occurred (Unknown) when calling the ListBuckets operation: Unknown"]
    (Some (VDict [("ResponseMetadata", VDict [("HTTPStatusCode", VInt 502)])])).

(** A [ClientError] whose 'Error' entry has a message but no 'Code'. *)
Definition codeless_client_error : exception :=
  mk_exception ClientError
    [VStr "An error occurred (Unknown) when calling the ListBuckets operation: Bad Gateway"]
    (Some (VDict [("Error", VDict [("Message", VStr "Bad Gateway")])])).

(** What CloudWatch Logs answers to CreateLogGroup when the temporary
    credentials have expired. *)
Definition expired_token_error : exception :=
  client_error "ExpiredToken"
    "The security token included in the request is expired" "CreateLogGroup".

(** The arguments of [put_cloudwatch_log_event("app", "web", "hello")]. *)
Definition log_event_arguments : arguments :=
  mk_arguments [VStr "app"; VStr "web"; VStr "hello"] [].

Definition token_retrieval_error : exception :=
  mk_exception TokenRetrievalError
    [VStr "Error when retrieving token from sso: Token has expired and refresh failed"]
    None.

Definition cancelled_error : exception :=
  mk_exception CancelledError [] None.

(** An operation that leaves one more mark on a counting cloud each time it
    runs, and then ends as [o]. *)
Definition ticking (o : outcome (pyobj nat)) : arguments -> coroutine nat (pyobj nat) :=
  fun _ w => (o, mk_world (stderr w) (S (cloud w))).

(** A table without the item asked for: DynamoDB answers GetItem without an
    'Item' entry. *)
Definition empty_table (r : request) : outcome value :=
  match r with
  | TableCall _ _ _ =>
      Returned (VDict [("ResponseMetadata", VDict [("HTTPStatusCode", VInt 200)])])
  | _ => Returned VNone
  end.

(** CloudWatch Logs where the group and the stream exist already. *)
Definition existing_log_stream (r : request) : outcome value :=
  match r with
  | ApiCall _ operation _ =>
      if String.eqb operation "put_log_events" then Returned (VDict [])
      else Raised (client_error "ResourceAlreadyExistsException"
                     "The specified resource already exists" operation)
  | TimeMillis => Returned (VInt 1700000000000)
  | _ => Returned VNone
  end.

(** CloudWatch Logs refusing to create anything. *)
Definition logs_access_denied (r : request) : outcome value :=
  match r with
  | ApiCall _ operation _ =>
      Raised (client_error "AccessDeniedException"
                "User is not authorized to perform this action" operation)
  | TimeMillis => Returned (VInt 1700000000000)
  | _ => Returned VNone
  end.

(** ** The other operations of the module *)

(** [mapping.get(key, default)]. *)
Definition dict_get_default (mapping : value) (key : string) (default : value)
    : outcome value :=
  match mapping with
  | VDict d =>
      match dict_lookup d key with
      | Some v => Returned v
      | None => Returned default
      end
  | _ => Raised (new_exception AttributeError "object has no attribute 'get'")
  end.

(** [d[key] = v] on the entries of a dict: an existing key keeps its place. *)
Fixpoint dict_set (d : dict) (key : string) (v : value) : dict :=
  match d with
  | [] => [(key, v)]
  | (k, old) :: rest =>
      if String.eqb k key then (k, v) :: rest
      else (k, old) :: dict_set rest key v
  end.

(** [len(v)]; the length of a str is its number of bytes here. *)
Definition py_len (v : value) : outcome Z :=
  match v with
  | VStr s => Returned (Z.of_nat (String.length s))
  | VList l => Returned (Z.of_nat (List.length l))
  | VDict d => Returned (Z.of_nat (List.length d))
  | _ => Raised (new_exception TypeError "object has no len()")
  end.

(** The characters of a str, one by one; a character is a byte here. *)
Fixpoint characters (s : string) : list value :=
  match s with
  | EmptyString => []
  | String c rest => VStr (String c EmptyString) :: characters rest
  end.

(** What [for x in v] goes through: the items of a list, the keys of a dict,
    the characters of a str. *)
Definition iterate (v : value) : outcome (list value) :=
  match v with
  | VList l => Returned l
  | VDict d => Returned (map (fun kv => VStr (fst kv)) d)
  | VStr s => Returned (characters s)
  | _ => Raised (new_exception TypeError "object is not iterable")
  end.

(** [[f(x) for x in l]]: in order, stopping at the first exception. *)
Fixpoint map_outcome {A B : Type} (f : A -> outcome B) (l : list A)
    : outcome (list B) :=
  match l with
  | [] => Returned []
  | x :: rest =>
      match f x with
      | Raised e => Raised e
      | Returned y =>
          match map_outcome f rest with
          | Raised e => Raised e
          | Returned ys => Returned (y :: ys)
          end
      end
  end.

(** [bind_params] for a signature in which some parameters have a default
    value. *)
Fixpoint bind_defaults (params : list (string * option value))
    (pos : list value) (kw : dict) : option (list value) :=
  match params with
  | [] =>
      match pos, kw with
      | [], [] => Some []
      | _, _ => None
      end
  | (p, default) :: ps =>
      match pos with
      | v :: pos' =>
          match dict_lookup kw p with
          | Some _ => None
          | None => option_map (cons v) (bind_defaults ps pos' kw)
          end
      | [] =>
          match dict_lookup kw p with
          | Some v =>
              option_map (cons v) (bind_defaults ps [] (dict_remove kw p))
          | None =>
              match default with
              | Some v => option_map (cons v) (bind_defaults ps [] kw)
              | None => None
              end
          end
      end
  end.

(** [s * n] on a str. *)
Fixpoint repeat_string (s : string) (n : nat) : string :=
  match n with
  | O => ""
  | S m => s ++ repeat_string s m
  end.

(** What a streamed response body is asked. *)
Inductive stream_request : Type :=
| BodyEnter (body : value)        (* entering [async with body as stream] *)
| BodyRead (stream : value)       (* await stream.read() *)
| BodyExit (body : value) (exc : option exception).

Section Operations.

Variable cloud_state : Type.
Variable os_environ : string -> option string.
Variable external : request -> cloud_state -> outcome value * cloud_state.

(** [obj.isoformat()] on what the SDK gives for a date: dates are carried as
    the plain data the collaborator chooses for them. *)
Variable isoformat : value -> outcome value.

(** The streamed body of an S3 object. *)
Variable streaming :
  stream_request -> cloud_state -> outcome value * cloud_state.

(** Writing a text to sys.stdout. *)
Variable stdout_write : string -> cloud_state -> cloud_state.

(** [str(v)] as an f-string renders plain data, and [str(e)] an exception. *)
Variable py_str : value -> string.
Variable exc_str : exception -> string.

(** *** S3 (source lines 89-152) *)

(** The function that [async def list_s3_buckets()] defines. *)
Definition list_s3_buckets_def : pyobj cloud_state :=
  AsyncFunction (fun a =>
    match bind_params [] (positional a) (keywords a) with
    | Some [] =>
        perform external (NewSession (AWS_PROFILE os_environ)) ;;;
        async_with external (Client "s3")
          (response <- perform external (ApiCall "s3" "list_buckets" []) ;;
           buckets <- lift (subscript response "Buckets") ;;
           buckets <- lift (iterate buckets) ;;
           names <- lift (map_outcome (fun bucket => subscript bucket "Name")
                            buckets) ;;
           ret (Data (VList names)))
    | _ => raise bad_call
    end).

Definition list_s3_buckets : pyobj cloud_state :=
  decorated (handle_aws_errors os_environ) list_s3_buckets_def.

(** The dict that the comprehension of [list_s3_objects] builds for [obj]. *)
Definition object_summary (obj : value) : outcome value :=
  match subscript obj "Key" with
  | Raised e => Raised e
  | Returned key =>
      match subscript obj "Size" with
      | Raised e => Raised e
      | Returned size =>
          match subscript obj "LastModified" with
          | Raised e => Raised e
          | Returned last_modified =>
              match isoformat last_modified with
              | Raised e => Raised e
              | Returned iso =>
                  match dict_get_default obj "StorageClass" (VStr "STANDARD")
                  with
                  | Raised e => Raised e
                  | Returned storage_class =>
                      Returned (VDict [("key", key);
                                       ("size", size);
                                       ("last_modified", iso);
                                       ("storage_class", storage_class)])
                  end
              end
          end
      end
  end.

(** The function that
    [async def list_s3_objects(bucket_name, prefix="", max_keys=100)]
    defines. *)
Definition list_s3_objects_def : pyobj cloud_state :=
  AsyncFunction (fun a =>
    match bind_defaults [("bucket_name", None);
                         ("prefix", Some (VStr ""));
                         ("max_keys", Some (VInt 100))]
            (positional a) (keywords a) with
    | Some [bucket_name; prefix; max_keys] =>
        perform external (NewSession (AWS_PROFILE os_environ)) ;;;
        async_with external (Client "s3")
          (response <- perform external
                         (ApiCall "s3" "list_objects_v2"
                            [("Bucket", bucket_name);
                             ("Prefix", prefix);
                             ("MaxKeys", max_keys)]) ;;
           contents <- lift (dict_get_default response "Contents" (VList [])) ;;
           contents <- lift (iterate contents) ;;
           rows <- lift (map_outcome object_summary contents) ;;
           ret (Data (VList rows)))
    | _ => raise bad_call
    end).

(** The function that
    [async def upload_to_s3(bucket_name, key, content,
                            content_type="application/octet-stream")]
    defines. *)
Definition upload_to_s3_def : pyobj cloud_state :=
  AsyncFunction (fun a =>
    match bind_defaults [("bucket_name", None);
                         ("key", None);
                         ("content", None);
                         ("content_type",
                          Some (VStr "application/octet-stream"))]
            (positional a) (keywords a) with
    | Some [bucket_name; key; content; content_type] =>
        perform external (NewSession (AWS_PROFILE os_environ)) ;;;
        async_with external (Client "s3")
          (perform external
             (ApiCall "s3" "put_object"
                [("Bucket", bucket_name);
                 ("Key", key);
                 ("Body", content);
                 ("ContentType", content_type)]) ;;;
           size <- lift (py_len content) ;;
           ret (Data (VDict [("bucket", bucket_name);
                             ("key", key);
                             ("size", VInt size);
                             ("content_type", content_type)])))
    | _ => raise bad_call
    end).

(** Awaiting the streamed body. *)
Definition perform_stream (r : stream_request) : coroutine cloud_state value :=
  fun w => let (o, c) := streaming r (cloud w) in (o, mk_world (stderr w) c).

(** Leaving an [async with body as stream] block that ended as [ended]. *)
Definition leave_body (body : value)
    (ended : outcome (pyobj cloud_state) * world cloud_state)
    : outcome (pyobj cloud_state) * world cloud_state :=
  match ended with
  | (Returned r, w1) => (perform_stream (BodyExit body None) ;;; ret r) w1
  | (Raised e, w1) =>
      (swallow <- perform_stream (BodyExit body (Some e)) ;;
       if truthy swallow then ret (Data VNone) else raise e) w1
  end.

(** The function that [async def download_from_s3(bucket_name, key)]
    defines. *)
Definition download_from_s3_def : pyobj cloud_state :=
  AsyncFunction (fun a =>
    match bind_params ["bucket_name"; "key"] (positional a) (keywords a) with
    | Some [bucket_name; key] =>
        perform external (NewSession (AWS_PROFILE os_environ)) ;;;
        async_with external (Client "s3")
          (response <- perform external
                         (ApiCall "s3" "get_object"
                            [("Bucket", bucket_name); ("Key", key)]) ;;
           body <- lift (subscript response "Body") ;;
           stream <- perform_stream (BodyEnter body) ;;
           (fun w =>
              leave_body body
                ((content <- perform_stream (BodyRead stream) ;;
                  ret (Data content)) w)))
    | _ => raise bad_call
    end).

(** *** DynamoDB (source lines 159-201) *)

(** The function that [async def list_dynamodb_tables()] defines. *)
Definition list_dynamodb_tables_def : pyobj cloud_state :=
  AsyncFunction (fun a =>
    match bind_params [] (positional a) (keywords a) with
    | Some [] =>
        perform external (NewSession (AWS_PROFILE os_environ)) ;;;
        async_with external (Client "dynamodb")
          (response <- perform external
                         (ApiCall "dynamodb" "list_tables" []) ;;
           names <- lift (dict_get_default response "TableNames" (VList [])) ;;
           ret (Data names))
    | _ => raise bad_call
    end).

Definition list_dynamodb_tables : pyobj cloud_state :=
  decorated (handle_aws_errors os_environ) list_dynamodb_tables_def.

(** The function that [async def put_dynamodb_item(table_name, item)]
    defines. *)
Definition put_dynamodb_item_def : pyobj cloud_state :=
  AsyncFunction (fun a =>
    match bind_params ["table_name"; "item"] (positional a) (keywords a) with
    | Some [table_name; item] =>
        perform external (NewSession (AWS_PROFILE os_environ)) ;;;
        async_with external (Resource "dynamodb")
          (perform external (GetTable table_name) ;;;
           perform external
             (TableCall table_name "put_item" [("Item", item)]) ;;;
           ret (Data VNone))
    | _ => raise bad_call
    end).

(** The function that
    [async def query_dynamodb(table_name, key_condition, expression_values)]
    defines. *)
Definition query_dynamodb_def : pyobj cloud_state :=
  AsyncFunction (fun a =>
    match bind_params ["table_name"; "key_condition"; "expression_values"]
            (positional a) (keywords a) with
    | Some [table_name; key_condition; expression_values] =>
        perform external (NewSession (AWS_PROFILE os_environ)) ;;;
        async_with external (Resource "dynamodb")
          (perform external (GetTable table_name) ;;;
           response <- perform external
                         (TableCall table_name "query"
                            [("KeyConditionExpression", key_condition);
                             ("ExpressionAttributeValues",
                              expression_values)]) ;;
           items <- lift (dict_get_default response "Items" (VList [])) ;;
           ret (Data items))
    | _ => raise bad_call
    end).

(** *** SQS (source lines 208-249) *)

(** The function that
    [async def send_sqs_message(queue_url, message_body,
                                message_attributes=None)]
    defines. *)
Definition send_sqs_message_def : pyobj cloud_state :=
  AsyncFunction (fun a =>
    match bind_defaults [("queue_url", None);
                         ("message_body", None);
                         ("message_attributes", Some VNone)]
            (positional a) (keywords a) with
    | Some [queue_url; message_body; message_attributes] =>
        perform external (NewSession (AWS_PROFILE os_environ)) ;;;
        async_with external (Client "sqs")
          (let params := [("QueueUrl", queue_url);
                          ("MessageBody", message_body)] in
           let params :=
             if truthy message_attributes
             then dict_set params "MessageAttributes" message_attributes
             else params in
           response <- perform external (ApiCall "sqs" "send_message" params) ;;
           message_id <- lift (subscript response "MessageId") ;;
           ret (Data message_id))
    | _ => raise bad_call
    end).

(** The function that
    [async def receive_sqs_messages(queue_url, max_messages=10, wait_time=20)]
    defines. *)
Definition receive_sqs_messages_def : pyobj cloud_state :=
  AsyncFunction (fun a =>
    match bind_defaults [("queue_url", None);
                         ("max_messages", Some (VInt 10));
                         ("wait_time", Some (VInt 20))]
            (positional a) (keywords a) with
    | Some [queue_url; max_messages; wait_time] =>
        perform external (NewSession (AWS_PROFILE os_environ)) ;;;
        async_with external (Client "sqs")
          (response <- perform external
                         (ApiCall "sqs" "receive_message"
                            [("QueueUrl", queue_url);
                             ("MaxNumberOfMessages", max_messages);
                             ("WaitTimeSeconds", wait_time);
                             ("MessageAttributeNames",
                              VList [VStr "All"])]) ;;
           messages <- lift (dict_get_default response "Messages" (VList [])) ;;
           ret (Data messages))
    | _ => raise bad_call
    end).

(** The function that [async def delete_sqs_message(queue_url, receipt_handle)]
    defines. *)
Definition delete_sqs_message_def : pyobj cloud_state :=
  AsyncFunction (fun a =>
    match bind_params ["queue_url"; "receipt_handle"]
            (positional a) (keywords a) with
    | Some [queue_url; receipt_handle] =>
        perform external (NewSession (AWS_PROFILE os_environ)) ;;;
        async_with external (Client "sqs")
          (perform external
             (ApiCall "sqs" "delete_message"
                [("QueueUrl", queue_url);
                 ("ReceiptHandle", receipt_handle)]) ;;;
           ret (Data VNone))
    | _ => raise bad_call
    end).

(** *** SNS (source lines 256-270) *)

(** The function that
    [async def publish_to_sns(topic_arn, message, subject=None)] defines. *)
Definition publish_to_sns_def : pyobj cloud_state :=
  AsyncFunction (fun a =>
    match bind_defaults [("topic_arn", None);
                         ("message", None);
                         ("subject", Some VNone)]
            (positional a) (keywords a) with
    | Some [topic_arn; message; subject] =>
        perform external (NewSession (AWS_PROFILE os_environ)) ;;;
        async_with external (Client "sns")
          (let params := [("TopicArn", topic_arn); ("Message", message)] in
           let params :=
             if truthy subject then dict_set params "Subject" subject
             else params in
           response <- perform external (ApiCall "sns" "publish" params) ;;
           message_id <- lift (subscript response "MessageId") ;;
           ret (Data message_id))
    | _ => raise bad_call
    end).

(** *** Example usage (source lines 320-377) *)

(** [print(text)]. *)
Definition print_stdout (text : string) : coroutine cloud_state unit :=
  fun w =>
    (Returned tt,
     mk_world (stderr w) (stdout_write (text ++ newline) (cloud w))).

(** An operation on plain data applied to a run-time object: functions and
    coroutine objects support none of them. *)
Definition on_data {A : Type} (op : value -> outcome A)
    (o : pyobj cloud_state) : outcome A :=
  match o with
  | Data v => op v
  | _ => Raised (new_exception TypeError "unsupported operand type")
  end.

(** [v[:5]]. *)
Definition first_five (v : value) : outcome value :=
  match v with
  | VList l => Returned (VList (firstn 5 l))
  | VStr s => Returned (VStr (substring 0 5 s))
  | _ => Raised (new_exception TypeError "object is not subscriptable")
  end.

(** [for item in items: body]. *)
Fixpoint for_each (items : list value)
    (body : value -> coroutine cloud_state unit) : coroutine cloud_state unit :=
  match items with
  | [] => ret tt
  | item :: rest => body item ;;; for_each rest body
  end.

(** The body of the second and of the third [try] of [main], which differ
    in the noun only: the size of the listing, its first five entries, and
    how many more there are. *)
Definition report_listing (noun : string) (listing : pyobj cloud_state)
    : coroutine cloud_state unit :=
  size <- lift (on_data py_len listing) ;;
  print_stdout ("   ✅ Found " ++ py_str (VInt size) ++ " " ++ noun ++ ":") ;;;
  shown <- lift (on_data first_five listing) ;;
  shown <- lift (iterate shown) ;;
  for_each shown (fun item => print_stdout ("      • " ++ py_str item)) ;;;
  size <- lift (on_data py_len listing) ;;
  if (5 <? size)%Z
  then print_stdout ("      ... and " ++ py_str (VInt (size - 5)) ++ " more")
  else ret tt.

(** [except Exception as e: print(...)]. *)
Definition report_error (e : exception) : coroutine cloud_state unit :=
  if isinstance e Exception
  then print_stdout ("   ❌ Error: " ++ exc_str e)
  else raise e.

(** The function that [async def main()] defines.  The first [try] yields
    whether [main] goes on: its [except] clause returns from the function. *)
Definition main_def : pyobj cloud_state :=
  AsyncFunction (fun a =>
    match bind_params [] (positional a) (keywords a) with
    | Some [] =>
        print_stdout (repeat_string "=" 80) ;;;
        print_stdout "AWS SSO + aioboto3 Example" ;;;
        print_stdout (repeat_string "=" 80) ;;;
        print_stdout (newline ++ "1. Checking AWS identity...") ;;;
        go_on <-
          try_except
            (identity <- await_call (get_caller_identity os_environ external)
                           (mk_arguments [] []) ;;
             user_arn <- lift (on_data (fun v => subscript v "user_arn")
                                 identity) ;;
             print_stdout ("   ✅ Logged in as: " ++ py_str user_arn) ;;;
             account_id <- lift (on_data (fun v => subscript v "account_id")
                                   identity) ;;
             print_stdout ("   Account ID: " ++ py_str account_id) ;;;
             active <- lift (on_data (fun v => subscript v "profile")
                               identity) ;;
             print_stdout ("   Profile: " ++ py_str active) ;;;
             ret true)
            (fun e =>
               if isinstance e AWSCredentialError then
                 print_stdout ("   ❌ Authentication failed: " ++ exc_str e) ;;;
                 ret false
               else raise e) ;;
        if go_on then
          print_stdout (newline ++ "2. Listing S3 buckets...") ;;;
          try_except
            (buckets <- await_call list_s3_buckets (mk_arguments [] []) ;;
             report_listing "buckets" buckets)
            report_error ;;;
          print_stdout (newline ++ "3. Listing DynamoDB tables...") ;;;
          try_except
            (tables <- await_call list_dynamodb_tables (mk_arguments [] []) ;;
             report_listing "tables" tables)
            report_error ;;;
          print_stdout (newline ++ repeat_string "=" 80) ;;;
          print_stdout "✅ All tests completed!" ;;;
          print_stdout (repeat_string "=" 80) ;;;
          ret (Data VNone)
        else
          ret (Data VNone)
    | _ => raise bad_call
    end).

End Operations.

Arguments list_s3_buckets_def {cloud_state} os_environ external.
Arguments list_s3_buckets {cloud_state} os_environ external.
Arguments list_s3_objects_def {cloud_state} os_environ external isoformat.
Arguments upload_to_s3_def {cloud_state} os_environ external.
Arguments leave_body {cloud_state} streaming body ended.
Arguments perform_stream {cloud_state} streaming r w.
Arguments download_from_s3_def {cloud_state} os_environ external streaming.
Arguments list_dynamodb_tables_def {cloud_state} os_environ external.
Arguments list_dynamodb_tables {cloud_state} os_environ external.
Arguments put_dynamodb_item_def {cloud_state} os_environ external.
Arguments query_dynamodb_def {cloud_state} os_environ external.
Arguments send_sqs_message_def {cloud_state} os_environ external.
Arguments receive_sqs_messages_def {cloud_state} os_environ external.
Arguments delete_sqs_message_def {cloud_state} os_environ external.
Arguments publish_to_sns_def {cloud_state} os_environ external.
Arguments print_stdout {cloud_state} stdout_write text w.
Arguments on_data {cloud_state A} op o.
Arguments for_each {cloud_state} items body w.
Arguments report_listing {cloud_state} stdout_write py_str noun listing w.
Arguments report_error {cloud_state} stdout_write exc_str e w.
Arguments main_def {cloud_state} os_environ external stdout_write py_str exc_str.

(** ** Further measures used in the statements *)

(** [row] is what [list_s3_objects] reports for the listed object [obj]: its
    key and size, its date in ISO format, and its storage class, 'STANDARD'
    when the listing gives none. *)
Definition summarised (isoformat : value -> outcome value)
    (obj row : value) : Prop :=
  exists (d : dict) (key size last_modified iso : value),
    obj = VDict d /\
    dict_lookup d "Key" = Some key /\
    dict_lookup d "Size" = Some size /\
    dict_lookup d "LastModified" = Some last_modified /\
    isoformat last_modified = Returned iso /\
    row = VDict [("key", key);
                 ("size", size);
                 ("last_modified", iso);
                 ("storage_class",
                  match dict_lookup d "StorageClass" with
                  | Some storage_class => storage_class
                  | None => VStr "STANDARD"
                  end)].

(** ** Further sample surroundings *)

(** A collaborator that answers the operation [op] with [answer] and
    everything else with None. *)
Definition answering (op : string) (answer : outcome value)
    : request -> outcome value :=
  fun r =>
    match r with
    | ApiCall _ operation _ | TableCall _ operation _ =>
        if String.eqb operation op then answer else Returned VNone
    | _ => Returned VNone
    end.

(** A cloud that keeps the trail of what the SDK and the streamed body were
    asked. *)
Definition trail : Type := list (request + stream_request).

Definition serving (answer : request -> outcome value)
    : request -> trail -> outcome value * trail :=
  fun r seen => (answer r, (seen ++ [inl r])%list).

(** A streamed body that reads as [content]. *)
Definition streamed (content : outcome value)
    : stream_request -> trail -> outcome value * trail :=
  fun r seen =>
    (match r with
     | BodyRead _ => content
     | _ => Returned VNone
     end, (seen ++ [inr r])%list).

(** Dates carried as ISO strings already. *)
Definition iso_strings (v : value) : outcome value :=
  match v with
  | VStr s => Returned (VStr s)
  | _ => Raised (new_exception AttributeError
                   "object has no attribute 'isoformat'")
  end.

(** A terminal kept as the list of the texts written to it. *)
Definition terminal : Type := list string.

Definition typing : string -> terminal -> terminal :=
  fun text shown => (shown ++ [text])%list.

Definition silent : request -> terminal -> outcome value * terminal :=
  fun _ shown => (Returned VNone, shown).


(** * Properties *)

(** ** The class hierarchy *)

Lemma client_error_is_not_token_retrieval (c : exc_class) :
  issubclass c ClientError = true -> issubclass c TokenRetrievalError = false.
Proof.
  unfold issubclass.
  induction c; simpl; try discriminate; try reflexivity.
  exact IHc.
Qed.

Lemma cancelled_is_not_caught (c : exc_class) :
  issubclass c CancelledError = true ->
  issubclass c TokenRetrievalError = false /\
  issubclass c ClientError = false /\
  issubclass c AWSCredentialError = false.
Proof.
  unfold issubclass.
  induction c; simpl; try discriminate; auto.
Qed.

(** ** Texts *)

Lemma count_newlines_app (s t : string) :
  count_newlines (s ++ t) = count_newlines s + count_newlines t.
Proof.
  induction s as [|c s IH]; simpl.
  - reflexivity.
  - rewrite IH. apply Nat.add_assoc.
Qed.

(** ** Inspection of a structured failure *)

Lemma missing_code_key_raises (e : exception) (d : dict) (k : string) :
  exc_response e = Some (VDict d) ->
  missing_code_key d = Some k ->
  response_error_code e = Raised (key_error k).
Proof.
  intros Hresp Hmiss.
  unfold response_error_code, getattr_response. rewrite Hresp.
  unfold missing_code_key in Hmiss. simpl.
  destruct (dict_lookup d "Error") as [v|] eqn:Herr.
  - destruct v; try discriminate. simpl.
    destruct (dict_lookup entries "Code"); [discriminate|].
    injection Hmiss as <-. reflexivity.
  - injection Hmiss as <-. reflexivity.
Qed.

(** ** Running a coroutine step by step *)

Lemma bind_returned {cloud_state A B} (c : coroutine cloud_state A)
    (k : A -> coroutine cloud_state B) w (r : A) w1 :
  c w = (Returned r, w1) -> bind c k w = k r w1.
Proof. intros H. unfold bind. rewrite H. reflexivity. Qed.

Lemma bind_raised {cloud_state A B} (c : coroutine cloud_state A)
    (k : A -> coroutine cloud_state B) w (e : exception) w1 :
  c w = (Raised e, w1) -> bind c k w = (Raised e, w1).
Proof. intros H. unfold bind. rewrite H. reflexivity. Qed.

Section NormalizerProperties.

Variable cloud_state : Type.
Variable os_environ : string -> option string.

Implicit Types (func : pyobj cloud_state) (a : arguments)
  (w : world cloud_state) (e : exception).

Lemma await_call_async_function
    (f : arguments -> coroutine cloud_state (pyobj cloud_state)) a w :
  await_call (AsyncFunction f) a w = f a w.
Proof. reflexivity. Qed.

(** Awaiting what the decorator returns is the only way to the closure. *)
Lemma await_handle_aws_errors func w :
  py_await (handle_aws_errors os_environ func) w
  = (Returned (AsyncFunction (wrapper os_environ func)), w).
Proof. reflexivity. Qed.

(** Whatever the wrapped operation does to the world outside the process is
    all that the normalized operation does to it. *)
Lemma wrapper_cloud func a w :
  cloud (snd (wrapper os_environ func a w))
  = cloud (snd (await_call func a w)).
Proof.
  unfold wrapper, try_except.
  destruct (await_call func a w) as [[r|e] w1]; simpl; [reflexivity|].
  destruct (isinstance e TokenRetrievalError); [reflexivity|].
  destruct (isinstance e ClientError); [|reflexivity].
  unfold bind, lift.
  destruct (response_error_code e) as [code|x]; [|reflexivity].
  destruct (eq_str code "ExpiredToken"); reflexivity.
Qed.

(** C1 (as the code has it): the name that [@handle_aws_errors] binds is not
    a callable.  For every async function [f] and every arguments, calling
    the decorated name raises TypeError, because the decorator is itself an
    [async def] and so hands back a coroutine object instead of [wrapper];
    this holds in particular of [get_caller_identity], which [main] calls. *)
Theorem decorated_name_is_not_callable
    (f : arguments -> coroutine cloud_state (pyobj cloud_state))
    (external : request -> cloud_state -> outcome value * cloud_state) a :
  py_call (decorated (handle_aws_errors os_environ) (AsyncFunction f)) a
  = Raised (new_exception TypeError "'coroutine' object is not callable")
  /\
  py_call (get_caller_identity os_environ external) a
  = Raised (new_exception TypeError "'coroutine' object is not callable").
Proof. split; reflexivity. Qed.

(** C2: when the wrapped operation completes with a result, the normalized
    operation returns that very result and leaves the world (standard error
    included) exactly as the operation left it. *)
Theorem wrapper_passes_result_through func a w (r : pyobj cloud_state) w' :
  await_call func a w = (Returned r, w') ->
  wrapper os_environ func a w = (Returned r, w').
Proof.
  intros H. unfold wrapper, try_except. rewrite H. reflexivity.
Qed.

(** C3: when the wrapped operation fails with a TokenRetrievalError, the
    normalized operation raises AWSCredentialError, having first written to
    standard error the message "session expired" / "Please run: aws sso login
    --profile <AWS_PROFILE>": two lines, as long as the profile name has no
    line end of its own. *)
Theorem wrapper_token_retrieval_error func a w e w' :
  await_call func a w = (Raised e, w') ->
  isinstance e TokenRetrievalError = true ->
  let error_msg :=
    "❌ AWS SSO session expired!" ++ newline ++
    "Please run: aws sso login --profile " ++ AWS_PROFILE os_environ in
  wrapper os_environ func a w
  = (Raised (new_exception AWSCredentialError error_msg),
     mk_world (stderr w' ++ error_msg ++ newline) (cloud w'))
  /\
  (count_newlines (AWS_PROFILE os_environ) = 0 ->
   count_newlines (error_msg ++ newline) = 2).
Proof.
  intros H Hinst error_msg. split.
  - unfold wrapper, try_except. rewrite H, Hinst. reflexivity.
  - intros Hprofile. subst error_msg.
    rewrite !count_newlines_app, Hprofile. reflexivity.
Qed.

(** C4: when the wrapped operation fails with a ClientError whose
    [response['Error']['Code']] is 'ExpiredToken', the normalized operation
    writes the "credentials expired" message to standard error and raises
    AWSCredentialError in place of the original failure. *)
Theorem wrapper_expired_token func a w e w' (code : value) :
  await_call func a w = (Raised e, w') ->
  isinstance e ClientError = true ->
  response_error_code e = Returned code ->
  eq_str code "ExpiredToken" = true ->
  let error_msg :=
    "❌ Temporary credentials expired!" ++ newline ++
    "Please run: aws sso login --profile " ++ AWS_PROFILE os_environ in
  wrapper os_environ func a w
  = (Raised (new_exception AWSCredentialError error_msg),
     mk_world (stderr w' ++ error_msg ++ newline) (cloud w'))
  /\ new_exception AWSCredentialError error_msg <> e.
Proof.
  intros H Hinst Hcode Heq error_msg. split.
  - unfold wrapper, try_except. rewrite H.
    unfold isinstance in *.
    rewrite (client_error_is_not_token_retrieval _ Hinst), Hinst.
    unfold bind, lift. rewrite Hcode, Heq. reflexivity.
  - intros <-. discriminate Hinst.
Qed.

(** C5 (amended): a ClientError carrying a readable code other than
    'ExpiredToken', and any failure that is neither a TokenRetrievalError
    nor a ClientError, comes out of the normalized operation as the same
    exception object, with the world (standard error included) as the
    operation left it.  (A ClientError from which no code can be read is
    the matter of C6.) *)
Theorem wrapper_reraises_other_failures func a w e w' :
  await_call func a w = (Raised e, w') ->
  (isinstance e ClientError = true /\
   exists code, response_error_code e = Returned code /\
                eq_str code "ExpiredToken" = false)
  \/
  (isinstance e TokenRetrievalError = false /\
   isinstance e ClientError = false) ->
  wrapper os_environ func a w = (Raised e, w').
Proof.
  intros H [[Hinst (code & Hcode & Hne)] | [Htok Hcli]];
    unfold wrapper, try_except; rewrite H.
  - unfold isinstance in *.
    rewrite (client_error_is_not_token_retrieval _ Hinst), Hinst.
    unfold bind, lift. rewrite Hcode, Hne. reflexivity.
  - rewrite Htok, Hcli. reflexivity.
Qed.

(** C6 (amended): when the wrapped operation fails with a ClientError whose
    response has no 'Error' entry, or whose 'Error' entry has no 'Code', the
    normalized operation fails with the KeyError of that missing key in
    place of the original failure: it returns no result, raises no
    AWSCredentialError and writes nothing. *)
Theorem wrapper_missing_error_code_raises_key_error
    func a w e w' (d : dict) (k : string) :
  await_call func a w = (Raised e, w') ->
  isinstance e ClientError = true ->
  exc_response e = Some (VDict d) ->
  missing_code_key d = Some k ->
  wrapper os_environ func a w = (Raised (key_error k), w')
  /\ key_error k <> e.
Proof.
  intros H Hinst Hresp Hmiss. split.
  - unfold wrapper, try_except. rewrite H.
    unfold isinstance in *.
    rewrite (client_error_is_not_token_retrieval _ Hinst), Hinst.
    unfold bind, lift.
    rewrite (missing_code_key_raises e d k Hresp Hmiss). reflexivity.
  - intros <-. discriminate Hinst.
Qed.

(** C7: when the wrapped operation is cancelled (it ends in
    asyncio.CancelledError), the normalized operation ends in the same
    exception object, which is no AWSCredentialError, and writes nothing. *)
Theorem wrapper_propagates_cancellation func a w e w' :
  await_call func a w = (Raised e, w') ->
  isinstance e CancelledError = true ->
  wrapper os_environ func a w = (Raised e, w')
  /\ isinstance e AWSCredentialError = false.
Proof.
  intros H Hinst.
  destruct (cancelled_is_not_caught _ Hinst) as (Htok & Hcli & Hcred).
  split; [|exact Hcred].
  unfold wrapper, try_except. rewrite H.
  unfold isinstance. rewrite Htok, Hcli. reflexivity.
Qed.

(** C8: the normalized operation runs the wrapped operation exactly once.
    For any way of counting marks on the world outside the process and any
    operation that leaves one more mark each time it runs, however it ends,
    one invocation of the normalized operation leaves exactly one more. *)
Theorem wrapper_invokes_func_once
    (count : cloud_state -> nat)
    (f : arguments -> coroutine cloud_state (pyobj cloud_state)) :
  (forall a w, count (cloud (snd (f a w))) = S (count (cloud w))) ->
  forall a w,
    count (cloud (snd (wrapper os_environ (AsyncFunction f) a w)))
    = S (count (cloud w)).
Proof.
  intros Hf a w.
  rewrite wrapper_cloud, await_call_async_function. apply Hf.
Qed.

End NormalizerProperties.

Section OperationProperties.

Variable cloud_state : Type.
Variable os_environ : string -> option string.
Variable external : request -> cloud_state -> outcome value * cloud_state.

Implicit Types (a : arguments) (e : exception) (err : string)
  (c : cloud_state).

Lemma perform_run (r : request) err c (o : outcome value) c' :
  external r c = (o, c') ->
  perform external r (mk_world err c) = (o, mk_world err c').
Proof. intros H. unfold perform. simpl. rewrite H. reflexivity. Qed.

Local Ltac run_step :=
  erewrite bind_returned
    by first [apply perform_run; eassumption | eassumption];
  cbv beta.

(** One [try: await create... / except ClientError as e: ...] statement of
    [put_cloudwatch_log_event], when the creation succeeds or reports that
    the resource exists already: the statement completes. *)
Lemma creation_tolerated (r : request) err c (o : outcome value) c' :
  external r c = (o, c') ->
  created_or_exists o = true ->
  exists v,
    try_except (perform external r) unless_already_exists (mk_world err c)
    = (Returned v, mk_world err c').
Proof.
  intros H Hok. unfold try_except. rewrite (perform_run _ _ _ _ _ H).
  destruct o as [v|e]; [now exists v|].
  simpl in Hok. apply andb_prop in Hok as [Hinst Hcode].
  unfold unless_already_exists. rewrite Hinst. unfold bind, lift.
  destruct (response_error_code e) as [code|]; [|discriminate].
  rewrite Hcode. now exists VNone.
Qed.

(** The same statement when the creation fails with any other code: the
    failure is raised again. *)
Lemma creation_refused (r : request) err c e c' (code : value) :
  external r c = (Raised e, c') ->
  isinstance e ClientError = true ->
  response_error_code e = Returned code ->
  eq_str code "ResourceAlreadyExistsException" = false ->
  try_except (perform external r) unless_already_exists (mk_world err c)
  = (Raised e, mk_world err c').
Proof.
  intros H Hinst Hcode Hne. unfold try_except.
  rewrite (perform_run _ _ _ _ _ H).
  unfold unless_already_exists. rewrite Hinst. unfold bind, lift.
  rewrite Hcode, Hne. reflexivity.
Qed.

(** X24: when the session, the DynamoDB resource and the table are obtained
    and GetItem answers without an 'Item' entry (the table holds no item for
    the key), the function that [async def get_dynamodb_item] defines
    returns None, and so does [wrapper] around it: no exception is raised.
    (What the decorator binds the module-level name to is the matter of
    C9.) *)
Theorem get_dynamodb_item_missing_item_returns_none
    a (table_name key : value) err c0 c1 c2 c3 c4 c5
    (session resource table closed : value) (response : dict) :
  bind_params ["table_name"; "key"] (positional a) (keywords a)
  = Some [table_name; key] ->
  external (NewSession (AWS_PROFILE os_environ)) c0 = (Returned session, c1) ->
  external (Aenter (Resource "dynamodb")) c1 = (Returned resource, c2) ->
  external (GetTable table_name) c2 = (Returned table, c3) ->
  external (TableCall table_name "get_item" [("Key", key)]) c3
  = (Returned (VDict response), c4) ->
  dict_lookup response "Item" = None ->
  external (Aexit (Resource "dynamodb") None) c4 = (Returned closed, c5) ->
  await_call (get_dynamodb_item_def os_environ external) a (mk_world err c0)
  = (Returned (Data VNone), mk_world err c5)
  /\
  wrapper os_environ (get_dynamodb_item_def os_environ external) a
    (mk_world err c0)
  = (Returned (Data VNone), mk_world err c5).
Proof.
  intros Hbind Hsession Henter Htable Hget Hitem Hexit.
  assert (await_call (get_dynamodb_item_def os_environ external) a
            (mk_world err c0)
          = (Returned (Data VNone), mk_world err c5)) as Hrun.
  { unfold get_dynamodb_item_def. rewrite await_call_async_function, Hbind.
    run_step. unfold async_with. run_step. run_step. run_step.
    unfold lift, dict_get, bind at 1. rewrite Hitem.
    unfold ret at 1, leave. run_step. reflexivity. }
  split; [exact Hrun|].
  unfold wrapper, try_except. rewrite Hrun. reflexivity.
Qed.

(** X25: in the function that [async def put_cloudwatch_log_event] defines,
    once the session and the client are obtained,
    - if creating the log group and creating the log stream each succeed or
      fail with a ClientError of code 'ResourceAlreadyExistsException', the
      event is put and the function returns None;
    - if creating the log group, or (the group being settled) creating the
      log stream, fails with a ClientError of any other code, that same
      exception leaves the function for its caller,
    the client's context closing without swallowing anything.  (The caller
    is [wrapper]; what it makes of the exception is the matter of C10.) *)
Theorem put_cloudwatch_log_event_tolerates_existing
    a (log_group log_stream message : value) err c0 c1 c2 c3 c4
    (session client : value) (group stream : outcome value) :
  bind_params ["log_group"; "log_stream"; "message"]
    (positional a) (keywords a)
  = Some [log_group; log_stream; message] ->
  external (NewSession (AWS_PROFILE os_environ)) c0 = (Returned session, c1) ->
  external (Aenter (Client "logs")) c1 = (Returned client, c2) ->
  external (ApiCall "logs" "create_log_group" [("logGroupName", log_group)]) c2
  = (group, c3) ->
  external (ApiCall "logs" "create_log_stream"
              [("logGroupName", log_group); ("logStreamName", log_stream)]) c3
  = (stream, c4) ->
  let run :=
    await_call (put_cloudwatch_log_event_def os_environ external) a
      (mk_world err c0) in
  (forall (timestamp put closed : value) c5 c6 c7,
     created_or_exists group = true ->
     created_or_exists stream = true ->
     external TimeMillis c4 = (Returned timestamp, c5) ->
     external (ApiCall "logs" "put_log_events"
                 [("logGroupName", log_group);
                  ("logStreamName", log_stream);
                  ("logEvents",
                   VList [VDict [("timestamp", timestamp);
                                 ("message", message)]])]) c5
     = (Returned put, c6) ->
     external (Aexit (Client "logs") None) c6 = (Returned closed, c7) ->
     run = (Returned (Data VNone), mk_world err c7))
  /\
  (forall e (code closed : value) c',
     group = Raised e ->
     isinstance e ClientError = true ->
     response_error_code e = Returned code ->
     eq_str code "ResourceAlreadyExistsException" = false ->
     external (Aexit (Client "logs") (Some e)) c3 = (Returned closed, c') ->
     truthy closed = false ->
     run = (Raised e, mk_world err c'))
  /\
  (forall e (code closed : value) c',
     created_or_exists group = true ->
     stream = Raised e ->
     isinstance e ClientError = true ->
     response_error_code e = Returned code ->
     eq_str code "ResourceAlreadyExistsException" = false ->
     external (Aexit (Client "logs") (Some e)) c4 = (Returned closed, c') ->
     truthy closed = false ->
     run = (Raised e, mk_world err c')).
Proof.
  intros Hbind Hsession Henter Hgroup Hstream run.
  assert (run =
    leave external (Client "logs")
      ((try_except
          (perform external
             (ApiCall "logs" "create_log_group" [("logGroupName", log_group)]))
          unless_already_exists ;;;
        try_except
          (perform external
             (ApiCall "logs" "create_log_stream"
                [("logGroupName", log_group); ("logStreamName", log_stream)]))
          unless_already_exists ;;;
        timestamp <- perform external TimeMillis ;;
        perform external
          (ApiCall "logs" "put_log_events"
             [("logGroupName", log_group);
              ("logStreamName", log_stream);
              ("logEvents",
               VList [VDict [("timestamp", timestamp);
                             ("message", message)]])]) ;;;
        ret (Data VNone)) (mk_world err c2))) as Hrun.
  { subst run. unfold put_cloudwatch_log_event_def.
    rewrite await_call_async_function, Hbind.
    run_step. unfold async_with. run_step. reflexivity. }
  rewrite Hrun. clear Hrun. repeat split.
  - intros timestamp put closed c5 c6 c7 Hg Hs Htime Hput Hexit.
    destruct (creation_tolerated _ err _ _ _ Hgroup Hg) as [v1 H1].
    destruct (creation_tolerated _ err _ _ _ Hstream Hs) as [v2 H2].
    run_step. run_step. run_step. run_step.
    unfold ret at 1, leave. run_step. reflexivity.
  - intros e code closed c' -> Hinst Hcode Hne Hexit Hfalse.
    erewrite bind_raised
      by (eapply creation_refused; eassumption).
    unfold leave. run_step. rewrite Hfalse. reflexivity.
  - intros e code closed c' Hg -> Hinst Hcode Hne Hexit Hfalse.
    destruct (creation_tolerated _ err _ _ _ Hgroup Hg) as [v1 H1].
    run_step.
    erewrite bind_raised
      by (eapply creation_refused; eassumption).
    unfold leave. run_step. rewrite Hfalse. reflexivity.
Qed.

End OperationProperties.

(** * The properties on sample runs *)

(** The operation returns a list of three identifiers: the normalized
    operation returns that list and writes nothing. *)
Lemma wrapper_passes_result_through_witness :
  wrapper bare_environ
    (returning (VList [VStr "alpha"; VStr "beta"; VStr "gamma"]))
    no_arguments fresh_world
  = (Returned (Data (VList [VStr "alpha"; VStr "beta"; VStr "gamma"])),
     fresh_world).
Proof.
  apply wrapper_passes_result_through. reflexivity.
Defined.

(** AWS_PROFILE=staging, and the operation fails to retrieve a token. *)
Lemma wrapper_token_retrieval_error_witness :
  let error_msg :=
    "❌ AWS SSO session expired!" ++ newline ++
    "Please run: aws sso login --profile staging" in
  wrapper staging_environ (failing token_retrieval_error)
    no_arguments fresh_world
  = (Raised (new_exception AWSCredentialError error_msg),
     mk_world (error_msg ++ newline) [])
  /\ count_newlines (error_msg ++ newline) = 2.
Proof.
  destruct (wrapper_token_retrieval_error journal staging_environ
              (failing token_retrieval_error) no_arguments fresh_world
              token_retrieval_error fresh_world eq_refl eq_refl)
    as [Hrun Hlines].
  split; [exact Hrun | exact (Hlines eq_refl)].
Defined.

(** The provider reports 'ExpiredToken'. *)
Lemma wrapper_expired_token_witness :
  let error_msg :=
    "❌ Temporary credentials expired!" ++ newline ++
    "Please run: aws sso login --profile my-dev" in
  wrapper bare_environ
    (failing (client_error "ExpiredToken"
                "The security token included in the request is expired"
                "ListBuckets"))
    no_arguments fresh_world
  = (Raised (new_exception AWSCredentialError error_msg),
     mk_world (error_msg ++ newline) []).
Proof.
  exact (proj1 (wrapper_expired_token journal bare_environ
                  (failing (client_error "ExpiredToken"
                     "The security token included in the request is expired"
                     "ListBuckets"))
                  no_arguments fresh_world _ fresh_world
                  (VStr "ExpiredToken") eq_refl eq_refl eq_refl eq_refl)).
Defined.

(** The provider reports 'AccessDenied'; the operation fails with a
    KeyError of its own. *)
Lemma wrapper_reraises_other_failures_witness :
  wrapper bare_environ
    (failing (client_error "AccessDenied" "Access Denied" "ListBuckets"))
    no_arguments fresh_world
  = (Raised (client_error "AccessDenied" "Access Denied" "ListBuckets"),
     fresh_world)
  /\
  wrapper bare_environ (failing (key_error "Buckets")) no_arguments fresh_world
  = (Raised (key_error "Buckets"), fresh_world).
Proof.
  split.
  - apply wrapper_reraises_other_failures; [reflexivity|].
    left. split; [reflexivity|].
    exists (VStr "AccessDenied"). split; reflexivity.
  - apply wrapper_reraises_other_failures; [reflexivity|].
    right. split; reflexivity.
Defined.

(** C6 (as stated) fails: on a ClientError whose response has no 'Error'
    entry the inspection [e.response['Error']['Code']] itself raises, and
    that KeyError, not the original failure, is what leaves the normalized
    operation. *)
Lemma malformed_client_error_crashes_inspection :
  response_error_code malformed_client_error = Raised (key_error "Error")
  /\
  wrapper bare_environ (failing malformed_client_error)
    no_arguments fresh_world
  = (Raised (key_error "Error"), fresh_world)
  /\
  key_error "Error" <> malformed_client_error.
Proof.
  split; [reflexivity|]. split; [reflexivity|]. discriminate.
Qed.

Lemma wrapper_missing_error_code_raises_key_error_witness :
  wrapper bare_environ (failing malformed_client_error)
    no_arguments fresh_world
  = (Raised (key_error "Error"), fresh_world)
  /\
  wrapper bare_environ
    (failing (mk_exception ClientError []
                (Some (VDict [("Error", VDict [("Message", VStr "?")])]))))
    no_arguments fresh_world
  = (Raised (key_error "Code"), fresh_world).
Proof.
  split.
  - eapply (fun d k H1 H2 H3 H4 =>
              proj1 (wrapper_missing_error_code_raises_key_error
                       journal bare_environ _ _ _ _ _ d k H1 H2 H3 H4));
      reflexivity.
  - eapply (fun d k H1 H2 H3 H4 =>
              proj1 (wrapper_missing_error_code_raises_key_error
                       journal bare_environ _ _ _ _ _ d k H1 H2 H3 H4));
      reflexivity.
Defined.

(** The operation is cancelled. *)
Lemma wrapper_propagates_cancellation_witness :
  wrapper bare_environ (failing cancelled_error) no_arguments fresh_world
  = (Raised cancelled_error, fresh_world).
Proof.
  exact (proj1 (wrapper_propagates_cancellation journal bare_environ
                  (failing cancelled_error) no_arguments fresh_world
                  cancelled_error fresh_world eq_refl eq_refl)).
Defined.

(** An operation that counts its runs and then fails with an expired token
    has run once when the normalized operation has raised. *)
Lemma wrapper_invokes_func_once_witness :
  cloud (snd (wrapper bare_environ
                (AsyncFunction (ticking (Raised token_retrieval_error)))
                no_arguments (mk_world "" 0)))
  = 1.
Proof.
  apply (wrapper_invokes_func_once nat bare_environ (fun n => n)
           (ticking (Raised token_retrieval_error))).
  intros a w. reflexivity.
Defined.

(** [get_dynamodb_item("users", key={"id": "42"})] on a table without that
    item. *)
Lemma get_dynamodb_item_missing_item_returns_none_witness :
  let a := mk_arguments [VStr "users"] [("key", VDict [("id", VStr "42")])] in
  let served :=
    [NewSession "my-dev"; Aenter (Resource "dynamodb");
     GetTable (VStr "users");
     TableCall (VStr "users") "get_item" [("Key", VDict [("id", VStr "42")])];
     Aexit (Resource "dynamodb") None] in
  await_call (get_dynamodb_item_def bare_environ (recording empty_table)) a
    (mk_world "" [])
  = (Returned (Data VNone), mk_world "" served)
  /\
  wrapper bare_environ
    (get_dynamodb_item_def bare_environ (recording empty_table)) a
    (mk_world "" [])
  = (Returned (Data VNone), mk_world "" served).
Proof.
  cbv zeta.
  eapply get_dynamodb_item_missing_item_returns_none; reflexivity.
Defined.

(** [put_cloudwatch_log_event("app", "web", "hello")] when the group and the
    stream exist already, and when the provider refuses to create them. *)
Lemma put_cloudwatch_log_event_tolerates_existing_witness :
  let a := mk_arguments [VStr "app"; VStr "web"; VStr "hello"] [] in
  (exists served,
     await_call
       (put_cloudwatch_log_event_def bare_environ
          (recording existing_log_stream)) a (mk_world "" [])
     = (Returned (Data VNone), mk_world "" served)
     /\ In (ApiCall "logs" "put_log_events"
              [("logGroupName", VStr "app"); ("logStreamName", VStr "web");
               ("logEvents",
                VList [VDict [("timestamp", VInt 1700000000000);
                              ("message", VStr "hello")]])]) served)
  /\
  (exists served,
     await_call
       (put_cloudwatch_log_event_def bare_environ
          (recording logs_access_denied)) a (mk_world "" [])
     = (Raised (client_error "AccessDeniedException"
                  "User is not authorized to perform this action"
                  "create_log_group"),
        mk_world "" served)).
Proof.
  cbv zeta. split.
  - eexists. split.
    + eapply (fun c1 c2 c3 c4 s cl g st H1 H2 H3 H4 H5 =>
                proj1 (put_cloudwatch_log_event_tolerates_existing
                         journal bare_environ (recording existing_log_stream)
                         _ _ _ _ "" [] c1 c2 c3 c4 s cl g st
                         H1 H2 H3 H4 H5));
        reflexivity.
    + simpl. tauto.
  - eexists.
    eapply (fun c1 c2 c3 c4 s cl g st H1 H2 H3 H4 H5 =>
              proj1 (proj2 (put_cloudwatch_log_event_tolerates_existing
                       journal bare_environ (recording logs_access_denied)
                       _ _ _ _ "" [] c1 c2 c3 c4 s cl g st
                       H1 H2 H3 H4 H5)));
      reflexivity.
Defined.

(** * Further properties of the normalizer *)

Lemma inspection_error_is_not_caught (e x : exception) :
  response_error_code e = Raised x ->
  isinstance x TokenRetrievalError = false /\
  isinstance x ClientError = false.
Proof.
  unfold response_error_code, getattr_response.
  destruct (exc_response e) as [response|]; simpl;
    [|intros [= <-]; split; reflexivity].
  destruct response; simpl; try (intros [= <-]; split; reflexivity).
  destruct (dict_lookup entries "Error") as [error|];
    [|intros [= <-]; split; reflexivity].
  destruct error; simpl; try (intros [= <-]; split; reflexivity).
  destruct (dict_lookup entries0 "Code");
    [discriminate | intros [= <-]; split; reflexivity].
Qed.

Section NormalizerAlgebra.

Variable cloud_state : Type.
Variable os_environ : string -> option string.

Implicit Types (func : pyobj cloud_state) (a : arguments)
  (w : world cloud_state) (e x : exception).

Lemma wrapper_of_returned func a w (r : pyobj cloud_state) w' :
  await_call func a w = (Returned r, w') ->
  wrapper os_environ func a w = (Returned r, w').
Proof.
  intros H. unfold wrapper, try_except. rewrite H. reflexivity.
Qed.

(** The ways in which the normalized operation ends when the wrapped one
    raises. *)
Lemma wrapper_raise_cases func a w e w' :
  await_call func a w = (Raised e, w') ->
  (wrapper os_environ func a w = (Raised e, w') /\
   isinstance e TokenRetrievalError = false /\
   (isinstance e ClientError = false \/
    exists code, response_error_code e = Returned code /\
                 eq_str code "ExpiredToken" = false))
  \/
  (exists msg,
     (msg = session_expired_msg os_environ \/
      msg = credentials_expired_msg os_environ) /\
     wrapper os_environ func a w
     = (Raised (new_exception AWSCredentialError msg),
        mk_world (stderr w' ++ msg ++ newline) (cloud w')))
  \/
  (exists x,
     response_error_code e = Raised x /\
     wrapper os_environ func a w = (Raised x, w')).
Proof.
  intros H. unfold wrapper, try_except. rewrite H.
  destruct (isinstance e TokenRetrievalError) eqn:Htok.
  - right. left. eexists. split; [left; reflexivity | reflexivity].
  - destruct (isinstance e ClientError) eqn:Hcli.
    + unfold bind, lift.
      destruct (response_error_code e) as [code|x] eqn:Hcode.
      * destruct (eq_str code "ExpiredToken") eqn:Heq.
        -- right. left. eexists. split; [right; reflexivity | reflexivity].
        -- left. repeat split. right. now exists code.
      * right. right. exists x. now split.
    + left. repeat split. now left.
Qed.

(** X1: the normalizer never makes a success of a failure.  When the
    normalized operation returns a result, the wrapped operation returned
    that result and left the world as it is. *)
Theorem wrapper_success_is_the_operations
    func a w (r : pyobj cloud_state) w' :
  wrapper os_environ func a w = (Returned r, w') ->
  await_call func a w = (Returned r, w').
Proof.
  intros H.
  destruct (await_call func a w) as [[r0|e] w0] eqn:Hrun.
  - rewrite (wrapper_of_returned _ _ _ _ _ Hrun) in H.
    exact H.
  - destruct (wrapper_raise_cases _ _ _ _ _ Hrun)
      as [(Hw & _) | [(msg & _ & Hw) | (x & _ & Hw)]];
      rewrite Hw in H; discriminate H.
Qed.

(** X2: when the normalized operation ends in another exception than the
    wrapped operation did, that exception is either an AWSCredentialError
    built on one of the two remediation messages, the very text that was
    just added to standard error, or the exception raised by reading
    [e.response['Error']['Code']], and then nothing was written. *)
Theorem wrapper_replaces_failure_only_by
    func a w e w' x (w'' : world cloud_state) :
  await_call func a w = (Raised e, w') ->
  wrapper os_environ func a w = (Raised x, w'') ->
  x <> e ->
  (exists msg,
     (msg = session_expired_msg os_environ \/
      msg = credentials_expired_msg os_environ) /\
     x = new_exception AWSCredentialError msg /\
     stderr w'' = stderr w' ++ msg ++ newline /\
     cloud w'' = cloud w')
  \/
  (response_error_code e = Raised x /\ w'' = w').
Proof.
  intros Hrun Hw Hne.
  destruct (wrapper_raise_cases _ _ _ _ _ Hrun)
    as [(Hw' & _) | [(msg & Hmsg & Hw') | (y & Hy & Hw')]];
    rewrite Hw' in Hw; injection Hw as <- <-.
  - now elim Hne.
  - left. exists msg. now repeat split.
  - right. now split.
Qed.

(** X3: normalizing twice is normalizing once.  An operation decorated a
    second time ends as with one decoration, and the remediation message is
    not written again. *)
Theorem wrapper_idempotent func a w :
  wrapper os_environ (AsyncFunction (wrapper os_environ func)) a w
  = wrapper os_environ func a w.
Proof.
  unfold wrapper at 1. unfold try_except.
  rewrite await_call_async_function.
  destruct (await_call func a w) as [[r|e] w0] eqn:Hrun.
  - rewrite (wrapper_of_returned _ _ _ _ _ Hrun). reflexivity.
  - destruct (wrapper_raise_cases _ _ _ _ _ Hrun)
      as [(Hw & Htok & Hcode) | [(msg & _ & Hw) | (x & Hx & Hw)]];
      rewrite Hw.
    + rewrite Htok. destruct Hcode as [Hcli | (code & Hcode & Hne)].
      * rewrite Hcli. reflexivity.
      * destruct (isinstance e ClientError); [|reflexivity].
        unfold bind, lift. rewrite Hcode, Hne. reflexivity.
    + reflexivity.
    + destruct (inspection_error_is_not_caught _ _ Hx) as [Htok Hcli].
      rewrite Htok, Hcli. reflexivity.
Qed.

(** X4: no remediation message without a credential error.  Unless the
    normalized operation ends in an AWSCredentialError of its own making, it
    leaves the world, standard error included, exactly as the wrapped
    operation left it. *)
Theorem wrapper_silent_unless_credential_error func a w :
  (forall msg,
     fst (wrapper os_environ func a w)
     <> Raised (new_exception AWSCredentialError msg)) ->
  snd (wrapper os_environ func a w) = snd (await_call func a w).
Proof.
  intros Hnot.
  destruct (await_call func a w) as [[r|e] w0] eqn:Hrun.
  - rewrite (wrapper_of_returned _ _ _ _ _ Hrun). reflexivity.
  - destruct (wrapper_raise_cases _ _ _ _ _ Hrun)
      as [(Hw & _) | [(msg & _ & Hw) | (x & _ & Hw)]];
      rewrite Hw in *; try reflexivity.
    now elim (Hnot msg).
Qed.

End NormalizerAlgebra.

(** * Properties of the operations *)

Lemma map_outcome_Forall2 {A B : Type} (f : A -> outcome B)
    (l : list A) (ys : list B) :
  Forall2 (fun x y => f x = Returned y) l ys ->
  map_outcome f l = Returned ys.
Proof.
  induction 1 as [|x y l ys Hx _ IH]; simpl.
  - reflexivity.
  - rewrite Hx, IH. reflexivity.
Qed.

Lemma object_summary_summarised (isoformat : value -> outcome value)
    (obj row : value) :
  summarised isoformat obj row ->
  object_summary isoformat obj = Returned row.
Proof.
  intros (d & key & size & lm & iso & -> & Hkey & Hsize & Hlm & Hiso & ->).
  unfold object_summary, subscript, dict_get_default.
  rewrite Hkey, Hsize, Hlm, Hiso.
  destruct (dict_lookup d "StorageClass"); reflexivity.
Qed.

Section ContextManagers.

Variable cloud_state : Type.
Variable os_environ : string -> option string.
Variable external : request -> cloud_state -> outcome value * cloud_state.

Implicit Types (a : arguments) (e : exception) (err : string)
  (c : cloud_state) (h : handle).

(** Once the session and the context are obtained, the function is its
    block followed by the exit of the context. *)
Lemma enter_context h (block : coroutine cloud_state (pyobj cloud_state))
    err c0 c1 c2 (session entered : value) :
  external (NewSession (AWS_PROFILE os_environ)) c0 = (Returned session, c1) ->
  external (Aenter h) c1 = (Returned entered, c2) ->
  (perform external (NewSession (AWS_PROFILE os_environ)) ;;;
   async_with external h block) (mk_world err c0)
  = leave external h (block (mk_world err c2)).
Proof.
  intros Hsession Henter.
  erewrite bind_returned by (apply perform_run; eassumption).
  unfold async_with.
  erewrite bind_returned by (apply perform_run; eassumption).
  reflexivity.
Qed.

Lemma leave_returned h (r : pyobj cloud_state) err c c' (closed : value) :
  external (Aexit h None) c = (Returned closed, c') ->
  leave external h (Returned r, mk_world err c)
  = (Returned r, mk_world err c').
Proof.
  intros H. unfold leave.
  erewrite bind_returned by (apply perform_run; eassumption).
  reflexivity.
Qed.

Lemma leave_raised h e err c c' (closed : value) :
  external (Aexit h (Some e)) c = (Returned closed, c') ->
  truthy closed = false ->
  leave external h (Raised e, mk_world err c) = (Raised e, mk_world err c').
Proof.
  intros H Hfalse. unfold leave.
  erewrite bind_returned by (apply perform_run; eassumption).
  rewrite Hfalse. reflexivity.
Qed.

End ContextManagers.

Section S3Properties.

Variable cloud_state : Type.
Variable os_environ : string -> option string.
Variable external : request -> cloud_state -> outcome value * cloud_state.

Implicit Types (a : arguments) (e : exception) (err : string)
  (c : cloud_state).

Local Ltac run_step :=
  erewrite bind_returned
    by first [apply perform_run; eassumption | eassumption | reflexivity];
  cbv beta.


(** X6: a listing without a 'Buckets' entry makes [list_s3_buckets] fail
    with KeyError('Buckets'), once the client is closed, and the normalizer
    lets that KeyError through as it is. *)
Theorem list_s3_buckets_without_buckets_entry
    err c0 c1 c2 c3 c4 (session client closed : value) (response : dict) :
  external (NewSession (AWS_PROFILE os_environ)) c0 = (Returned session, c1) ->
  external (Aenter (Client "s3")) c1 = (Returned client, c2) ->
  external (ApiCall "s3" "list_buckets" []) c2
  = (Returned (VDict response), c3) ->
  dict_lookup response "Buckets" = None ->
  external (Aexit (Client "s3") (Some (key_error "Buckets"))) c3
  = (Returned closed, c4) ->
  truthy closed = false ->
  await_call (list_s3_buckets_def os_environ external) (mk_arguments [] [])
    (mk_world err c0)
  = (Raised (key_error "Buckets"), mk_world err c4)
  /\
  wrapper os_environ (list_s3_buckets_def os_environ external)
    (mk_arguments [] []) (mk_world err c0)
  = (Raised (key_error "Buckets"), mk_world err c4).
Proof.
  intros Hsession Henter Hlist Hbuckets Hexit Hfalse.
  assert (await_call (list_s3_buckets_def os_environ external)
            (mk_arguments [] []) (mk_world err c0)
          = (Raised (key_error "Buckets"), mk_world err c4)) as Hrun.
  { unfold list_s3_buckets_def. rewrite await_call_async_function.
    cbn [bind_params positional keywords].
    rewrite (enter_context _ _ _ _ _ _ _ _ _ _ _ Hsession Henter).
    run_step. unfold lift at 1, subscript at 1. rewrite Hbuckets.
    erewrite bind_raised by reflexivity.
    apply (leave_raised _ _ _ _ _ _ _ _ Hexit Hfalse). }
  split; [exact Hrun|].
  unfold wrapper, try_except. rewrite Hrun. reflexivity.
Qed.




Variable streaming :
  stream_request -> cloud_state -> outcome value * cloud_state.

Lemma perform_stream_run (r : stream_request) err c (o : outcome value) c' :
  streaming r c = (o, c') ->
  perform_stream streaming r (mk_world err c) = (o, mk_world err c').
Proof. intros H. unfold perform_stream. simpl. rewrite H. reflexivity. Qed.

Local Ltac stream_step :=
  erewrite bind_returned by (apply perform_stream_run; eassumption);
  cbv beta.



End S3Properties.

Section ServiceProperties.

Variable cloud_state : Type.
Variable os_environ : string -> option string.
Variable external : request -> cloud_state -> outcome value * cloud_state.

Implicit Types (a : arguments) (e : exception) (err : string)
  (c : cloud_state).

Local Ltac run_step :=
  erewrite bind_returned
    by first [apply perform_run; eassumption | eassumption | reflexivity];
  cbv beta.








End ServiceProperties.

Section EndToEnd.

Variable cloud_state : Type.
Variable os_environ : string -> option string.
Variable external : request -> cloud_state -> outcome value * cloud_state.

Implicit Types (a : arguments) (e : exception) (err : string)
  (c : cloud_state).

Local Ltac run_step :=
  erewrite bind_returned
    by first [apply perform_run; eassumption | eassumption | reflexivity];
  cbv beta.


(** X20: the identity check with a stale session, end to end.  When the STS
    call of [get_caller_identity] fails with a TokenRetrievalError, or with
    a ClientError of code 'ExpiredToken', the client is closed, being told
    of that failure, and [wrapper] around the function then writes the
    matching remediation message to standard error and raises
    AWSCredentialError. *)
Theorem get_caller_identity_with_stale_session
    e err c0 c1 c2 c3 c4 (session client closed : value) :
  external (NewSession (AWS_PROFILE os_environ)) c0 = (Returned session, c1) ->
  external (Aenter (Client "sts")) c1 = (Returned client, c2) ->
  external (ApiCall "sts" "get_caller_identity" []) c2 = (Raised e, c3) ->
  isinstance e TokenRetrievalError = true \/
  (isinstance e ClientError = true /\
   exists code, response_error_code e = Returned code /\
                eq_str code "ExpiredToken" = true) ->
  external (Aexit (Client "sts") (Some e)) c3 = (Returned closed, c4) ->
  truthy closed = false ->
  let error_msg :=
    (if isinstance e TokenRetrievalError
     then "❌ AWS SSO session expired!"
     else "❌ Temporary credentials expired!") ++ newline ++
    "Please run: aws sso login --profile " ++ AWS_PROFILE os_environ in
  wrapper os_environ (get_caller_identity_def os_environ external)
    (mk_arguments [] []) (mk_world err c0)
  = (Raised (new_exception AWSCredentialError error_msg),
     mk_world (err ++ error_msg ++ newline) c4).
Proof.
  intros Hsession Henter Hsts Hkind Hexit Hfalse error_msg.
  assert (await_call (get_caller_identity_def os_environ external)
            (mk_arguments [] []) (mk_world err c0)
          = (Raised e, mk_world err c4)) as Hrun.
  { unfold get_caller_identity_def. rewrite await_call_async_function.
    cbn [bind_params positional keywords].
    rewrite (enter_context _ _ _ _ _ _ _ _ _ _ _ Hsession Henter).
    erewrite bind_raised by (apply perform_run; eassumption).
    apply (leave_raised _ _ _ _ _ _ _ _ Hexit Hfalse). }
  unfold wrapper, try_except. rewrite Hrun. subst error_msg.
  destruct Hkind as [Htok | (Hcli & code & Hcode & Heq)].
  - rewrite Htok. reflexivity.
  - unfold isinstance in *.
    rewrite (client_error_is_not_token_retrieval _ Hcli), Hcli.
    unfold bind, lift. rewrite Hcode, Heq. reflexivity.
Qed.

Lemma expired_token_is_not_already_exists (code : value) :
  eq_str code "ExpiredToken" = true ->
  eq_str code "ResourceAlreadyExistsException" = false.
Proof.
  destruct code; simpl; try discriminate.
  intros H. apply String.eqb_eq in H. subst s. reflexivity.
Qed.

(** X21: [put_cloudwatch_log_event] does not take an expired token for an
    existing log group.  When creating the log group fails with a
    ClientError of code 'ExpiredToken', neither the stream nor the event is
    attempted, and [wrapper] around the function raises AWSCredentialError
    after writing the remediation message. *)
Theorem put_cloudwatch_log_event_with_expired_token
    a (log_group log_stream message : value) e (code : value)
    err c0 c1 c2 c3 c4 (session client closed : value) :
  bind_params ["log_group"; "log_stream"; "message"]
    (positional a) (keywords a)
  = Some [log_group; log_stream; message] ->
  external (NewSession (AWS_PROFILE os_environ)) c0 = (Returned session, c1) ->
  external (Aenter (Client "logs")) c1 = (Returned client, c2) ->
  external (ApiCall "logs" "create_log_group" [("logGroupName", log_group)]) c2
  = (Raised e, c3) ->
  isinstance e ClientError = true ->
  response_error_code e = Returned code ->
  eq_str code "ExpiredToken" = true ->
  external (Aexit (Client "logs") (Some e)) c3 = (Returned closed, c4) ->
  truthy closed = false ->
  let error_msg :=
    "❌ Temporary credentials expired!" ++ newline ++
    "Please run: aws sso login --profile " ++ AWS_PROFILE os_environ in
  wrapper os_environ (put_cloudwatch_log_event_def os_environ external) a
    (mk_world err c0)
  = (Raised (new_exception AWSCredentialError error_msg),
     mk_world (err ++ error_msg ++ newline) c4).
Proof.
  intros Hbind Hsession Henter Hgroup Hcli Hcode Heq Hexit Hfalse error_msg.
  assert (await_call (put_cloudwatch_log_event_def os_environ external) a
            (mk_world err c0)
          = (Raised e, mk_world err c4)) as Hrun.
  { unfold put_cloudwatch_log_event_def.
    rewrite await_call_async_function, Hbind.
    rewrite (enter_context _ _ _ _ _ _ _ _ _ _ _ Hsession Henter).
    erewrite bind_raised
      by (eapply creation_refused;
          eauto using expired_token_is_not_already_exists).
    apply (leave_raised _ _ _ _ _ _ _ _ Hexit Hfalse). }
  unfold wrapper, try_except. rewrite Hrun. subst error_msg.
  unfold isinstance in *.
  rewrite (client_error_is_not_token_retrieval _ Hcli), Hcli.
  unfold bind, lift. rewrite Hcode, Heq. reflexivity.
Qed.

(** X22: [put_cloudwatch_log_event] never goes on after a log group it
    could not settle.  When creating the log group fails in any way other
    than a ClientError of code 'ResourceAlreadyExistsException', and the
    client's context swallows no exception, the function ends in an
    exception: it returns no result. *)
Theorem put_cloudwatch_log_event_stops_on_failed_group
    a (log_group log_stream message : value) e
    err c0 c1 c2 c3 (session client : value) :
  bind_params ["log_group"; "log_stream"; "message"]
    (positional a) (keywords a)
  = Some [log_group; log_stream; message] ->
  external (NewSession (AWS_PROFILE os_environ)) c0 = (Returned session, c1) ->
  external (Aenter (Client "logs")) c1 = (Returned client, c2) ->
  external (ApiCall "logs" "create_log_group" [("logGroupName", log_group)]) c2
  = (Raised e, c3) ->
  created_or_exists (Raised e) = false ->
  (forall x (closed : value) c',
     external (Aexit (Client "logs") (Some x)) c3 = (Returned closed, c') ->
     truthy closed = false) ->
  exists x w',
    await_call (put_cloudwatch_log_event_def os_environ external) a
      (mk_world err c0)
    = (Raised x, w').
Proof.
  intros Hbind Hsession Henter Hgroup Hnot Hexit.
  unfold put_cloudwatch_log_event_def.
  rewrite await_call_async_function, Hbind.
  rewrite (enter_context _ _ _ _ _ _ _ _ _ _ _ Hsession Henter).
  assert (exists x,
            try_except
              (perform external
                 (ApiCall "logs" "create_log_group"
                    [("logGroupName", log_group)]))
              unless_already_exists (mk_world err c2)
            = (Raised x, mk_world err c3)) as [x Hx].
  { unfold try_except. rewrite (perform_run _ _ _ _ _ _ _ Hgroup).
    unfold unless_already_exists. simpl in Hnot.
    destruct (isinstance e ClientError); [|now exists e].
    unfold bind, lift.
    destruct (response_error_code e) as [code|y]; [|now exists y].
    simpl in Hnot. rewrite Hnot. now exists e. }
  erewrite bind_raised by exact Hx.
  unfold leave, bind, perform. simpl.
  destruct (external (Aexit (Client "logs") (Some x)) c3)
    as [[closed|y] c'] eqn:Hclose.
  - rewrite (Hexit _ _ _ Hclose). now eexists; eexists.
  - now eexists; eexists.
Qed.

(** X23: [main] never gets past its identity check.  Whatever the
    environment, the SDK and the terminal, it prints the banner and
    "1. Checking AWS identity..." and then ends in the TypeError of calling
    [get_caller_identity], which its [except AWSCredentialError] clause
    does not catch; nothing is asked of the SDK. *)
Theorem main_stops_at_identity_check
    (stdout_write : string -> cloud_state -> cloud_state)
    (py_str : value -> string) (exc_str : exception -> string) err c :
  await_call (main_def os_environ external stdout_write py_str exc_str)
    (mk_arguments [] []) (mk_world err c)
  = (Raised (new_exception TypeError "'coroutine' object is not callable"),
     mk_world err
       (stdout_write (newline ++ "1. Checking AWS identity..." ++ newline)
          (stdout_write (repeat_string "=" 80 ++ newline)
             (stdout_write ("AWS SSO + aioboto3 Example" ++ newline)
                (stdout_write (repeat_string "=" 80 ++ newline) c))))).
Proof. reflexivity. Qed.

End EndToEnd.

(** * The further properties on sample runs *)

Lemma wrapper_success_is_the_operations_witness :
  await_call (returning (VStr "ok")) no_arguments fresh_world
  = (Returned (Data (VStr "ok")), fresh_world).
Proof.
  apply (wrapper_success_is_the_operations journal bare_environ).
  reflexivity.
Defined.

(** The response has no 'Error' entry: the KeyError of the inspection
    replaces the ClientError, and nothing is written. *)
Lemma wrapper_replaces_failure_only_by_witness :
  (exists msg,
     (msg = session_expired_msg bare_environ \/
      msg = credentials_expired_msg bare_environ) /\
     key_error "Error" = new_exception AWSCredentialError msg /\
     stderr fresh_world = stderr fresh_world ++ msg ++ newline /\
     cloud fresh_world = cloud fresh_world)
  \/
  (response_error_code malformed_client_error = Raised (key_error "Error") /\
   fresh_world = fresh_world).
Proof.
  apply (wrapper_replaces_failure_only_by journal bare_environ
           (failing malformed_client_error) no_arguments fresh_world
           malformed_client_error fresh_world (key_error "Error") fresh_world);
    [reflexivity | reflexivity | discriminate].
Defined.

Lemma wrapper_silent_unless_credential_error_witness :
  snd (wrapper bare_environ
         (failing (client_error "AccessDenied" "Access Denied" "ListBuckets"))
         no_arguments fresh_world)
  = snd (await_call
           (failing (client_error "AccessDenied" "Access Denied" "ListBuckets"))
           no_arguments fresh_world).
Proof.
  apply wrapper_silent_unless_credential_error.
  intros msg H. simpl in H. discriminate H.
Defined.


Lemma list_s3_buckets_without_buckets_entry_witness :
  exists served,
    wrapper bare_environ
      (list_s3_buckets_def bare_environ
         (recording (answering "list_buckets" (Returned (VDict [])))))
      (mk_arguments [] []) (mk_world "" [])
    = (Raised (key_error "Buckets"), mk_world "" served).
Proof.
  eexists.
  eapply proj2. eapply list_s3_buckets_without_buckets_entry; reflexivity.
Defined.














(** The SSO session has expired when STS is called. *)
Lemma get_caller_identity_with_stale_session_witness :
  let error_msg :=
    "❌ AWS SSO session expired!" ++ newline ++
    "Please run: aws sso login --profile staging" in
  exists served,
    wrapper staging_environ
      (get_caller_identity_def staging_environ
         (recording
            (answering "get_caller_identity" (Raised token_retrieval_error))))
      (mk_arguments [] []) (mk_world "" [])
    = (Raised (new_exception AWSCredentialError error_msg),
       mk_world (error_msg ++ newline) served).
Proof.
  cbv zeta. eexists.
  eapply (get_caller_identity_with_stale_session journal staging_environ
            _ token_retrieval_error "");
    try reflexivity.
  left. reflexivity.
Defined.

Lemma put_cloudwatch_log_event_with_expired_token_witness :
  let error_msg :=
    "❌ Temporary credentials expired!" ++ newline ++
    "Please run: aws sso login --profile my-dev" in
  exists served,
    wrapper bare_environ
      (put_cloudwatch_log_event_def bare_environ
         (recording
            (answering "create_log_group"
               (Raised (client_error "ExpiredToken"
                          "The security token included in the request is expired"
                          "CreateLogGroup")))))
      (mk_arguments [VStr "app"; VStr "web"; VStr "hello"] [])
      (mk_world "" [])
    = (Raised (new_exception AWSCredentialError error_msg),
       mk_world (error_msg ++ newline) served)
    /\ List.length served = 4.
Proof.
  cbv zeta. eexists. split.
  - eapply (put_cloudwatch_log_event_with_expired_token journal bare_environ
              _ _ _ _ _ _ (VStr "ExpiredToken") "");
      reflexivity.
  - reflexivity.
Defined.

(** The SSO session has expired when the log group is created. *)
Lemma put_cloudwatch_log_event_stops_on_failed_group_witness :
  exists x w',
    await_call
      (put_cloudwatch_log_event_def bare_environ
         (recording
            (answering "create_log_group" (Raised token_retrieval_error))))
      (mk_arguments [VStr "app"; VStr "web"; VStr "hello"] [])
      (mk_world "" [])
    = (Raised x, w').
Proof.
  eapply (put_cloudwatch_log_event_stops_on_failed_group journal bare_environ
            _ _ _ _ _ token_retrieval_error "" []);
    try reflexivity.
  intros x closed c' H. injection H as <- _. reflexivity.
Defined.

(** * The decorated operations, as the module binds them and as they were
      meant *)

(** C5 (as stated) fails: a ClientError whose 'Error' entry has no 'Code'
    is neither a failed token retrieval nor an expired token, yet what
    leaves the normalized operation is not that ClientError but the
    KeyError('Code') of reading its code. *)
Lemma client_error_without_code_is_not_reraised :
  isinstance codeless_client_error TokenRetrievalError = false
  /\
  response_error_code codeless_client_error = Raised (key_error "Code")
  /\
  wrapper bare_environ (failing codeless_client_error)
    no_arguments fresh_world
  = (Raised (key_error "Code"), fresh_world)
  /\
  key_error "Code" <> codeless_client_error.
Proof.
  repeat (split; [reflexivity|]). discriminate.
Qed.

(** C10 (as stated) fails: when creating the log group fails with a
    ClientError of code 'ExpiredToken', which is a code other than
    'ResourceAlreadyExistsException', the function raises it again, but
    what reaches the caller of the normalized operation is an
    AWSCredentialError, not that ClientError. *)
Lemma put_cloudwatch_log_event_expired_token_does_not_propagate :
  fst (await_call
         (put_cloudwatch_log_event_def bare_environ
            (recording
               (answering "create_log_group" (Raised expired_token_error))))
         log_event_arguments fresh_world)
  = Raised expired_token_error
  /\
  fst (wrapper bare_environ
         (put_cloudwatch_log_event_def bare_environ
            (recording
               (answering "create_log_group" (Raised expired_token_error))))
         log_event_arguments fresh_world)
  = Raised (new_exception AWSCredentialError
              (credentials_expired_msg bare_environ))
  /\
  new_exception AWSCredentialError (credentials_expired_msg bare_environ)
  <> expired_token_error.
Proof.
  split; [reflexivity|]. split; [reflexivity|]. discriminate.
Qed.

Section DecoratedOperations.

Variable cloud_state : Type.
Variable os_environ : string -> option string.
Variable external : request -> cloud_state -> outcome value * cloud_state.

Implicit Types (a : arguments) (e : exception) (err : string)
  (c : cloud_state) (w : world cloud_state).

Local Ltac run_step :=
  erewrite bind_returned
    by first [apply perform_run; eassumption | eassumption | reflexivity];
  cbv beta.

(** C9 (as the code has it): the module-level name [get_dynamodb_item] is
    the coroutine object that the [async def] decorator returned.  Whatever
    the table holds, calling it raises TypeError, and so does
    [await get_dynamodb_item(...)], before anything is asked of DynamoDB:
    for a missing item the name does not return None, it raises. *)
Theorem get_dynamodb_item_is_not_callable a w :
  py_call (get_dynamodb_item os_environ external) a
  = Raised (new_exception TypeError "'coroutine' object is not callable")
  /\
  await_call (get_dynamodb_item os_environ external) a w
  = (Raised (new_exception TypeError "'coroutine' object is not callable"),
     w).
Proof. split; reflexivity. Qed.

(** The function of [put_cloudwatch_log_event] is the block of its
    [async with], followed by the exit of the client. *)
Lemma put_cloudwatch_log_event_block
    a (log_group log_stream message : value) err c0 c1 c2
    (session client : value) :
  bind_params ["log_group"; "log_stream"; "message"]
    (positional a) (keywords a)
  = Some [log_group; log_stream; message] ->
  external (NewSession (AWS_PROFILE os_environ)) c0 = (Returned session, c1) ->
  external (Aenter (Client "logs")) c1 = (Returned client, c2) ->
  await_call (put_cloudwatch_log_event_def os_environ external) a
    (mk_world err c0)
  = leave external (Client "logs")
      ((try_except
          (perform external
             (ApiCall "logs" "create_log_group" [("logGroupName", log_group)]))
          unless_already_exists ;;;
        try_except
          (perform external
             (ApiCall "logs" "create_log_stream"
                [("logGroupName", log_group); ("logStreamName", log_stream)]))
          unless_already_exists ;;;
        timestamp <- perform external TimeMillis ;;
        perform external
          (ApiCall "logs" "put_log_events"
             [("logGroupName", log_group);
              ("logStreamName", log_stream);
              ("logEvents",
               VList [VDict [("timestamp", timestamp);
                             ("message", message)]])]) ;;;
        ret (Data VNone)) (mk_world err c2)).
Proof.
  intros Hbind Hsession Henter.
  unfold put_cloudwatch_log_event_def.
  rewrite await_call_async_function, Hbind.
  apply (enter_context _ _ _ _ _ _ _ _ _ _ _ Hsession Henter).
Qed.

(** What [wrapper] makes of a ClientError whose code can be read. *)
Lemma wrapper_of_client_error (func : pyobj cloud_state) a w e w'
    (code : value) :
  await_call func a w = (Raised e, w') ->
  isinstance e ClientError = true ->
  response_error_code e = Returned code ->
  wrapper os_environ func a w
  = if eq_str code "ExpiredToken"
    then (Raised (new_exception AWSCredentialError
                    (credentials_expired_msg os_environ)),
          mk_world (stderr w' ++ credentials_expired_msg os_environ ++ newline)
            (cloud w'))
    else (Raised e, w').
Proof.
  intros Hrun Hcli Hcode. unfold wrapper, try_except. rewrite Hrun.
  unfold isinstance in *.
  rewrite (client_error_is_not_token_retrieval _ Hcli), Hcli.
  unfold bind, lift. rewrite Hcode.
  destruct (eq_str code "ExpiredToken"); reflexivity.
Qed.

(** C10 (amended): under the normalizer's [wrapper], and once the session
    and the client are obtained, the function that
    [async def put_cloudwatch_log_event] defines
    - puts the event and returns None when creating the log group and
      creating the log stream each succeed or fail with a ClientError of
      code 'ResourceAlreadyExistsException';
    - when creating the log group, or (the group being settled) creating
      the log stream, fails with a ClientError of any other readable code,
      lets that same exception reach the caller, unless the code is
      'ExpiredToken': then the caller gets an AWSCredentialError, the
      remediation message having been written to standard error,
    the client's context closing without swallowing anything. *)
Theorem put_cloudwatch_log_event_under_wrapper
    a (log_group log_stream message : value) err c0 c1 c2 c3 c4
    (session client : value) (group stream : outcome value) :
  bind_params ["log_group"; "log_stream"; "message"]
    (positional a) (keywords a)
  = Some [log_group; log_stream; message] ->
  external (NewSession (AWS_PROFILE os_environ)) c0 = (Returned session, c1) ->
  external (Aenter (Client "logs")) c1 = (Returned client, c2) ->
  external (ApiCall "logs" "create_log_group" [("logGroupName", log_group)]) c2
  = (group, c3) ->
  external (ApiCall "logs" "create_log_stream"
              [("logGroupName", log_group); ("logStreamName", log_stream)]) c3
  = (stream, c4) ->
  let run :=
    wrapper os_environ (put_cloudwatch_log_event_def os_environ external) a
      (mk_world err c0) in
  let error_msg :=
    "❌ Temporary credentials expired!" ++ newline ++
    "Please run: aws sso login --profile " ++ AWS_PROFILE os_environ in
  (forall (timestamp put closed : value) c5 c6 c7,
     created_or_exists group = true ->
     created_or_exists stream = true ->
     external TimeMillis c4 = (Returned timestamp, c5) ->
     external (ApiCall "logs" "put_log_events"
                 [("logGroupName", log_group);
                  ("logStreamName", log_stream);
                  ("logEvents",
                   VList [VDict [("timestamp", timestamp);
                                 ("message", message)]])]) c5
     = (Returned put, c6) ->
     external (Aexit (Client "logs") None) c6 = (Returned closed, c7) ->
     run = (Returned (Data VNone), mk_world err c7))
  /\
  (forall e (code closed : value) c',
     group = Raised e ->
     isinstance e ClientError = true ->
     response_error_code e = Returned code ->
     eq_str code "ResourceAlreadyExistsException" = false ->
     external (Aexit (Client "logs") (Some e)) c3 = (Returned closed, c') ->
     truthy closed = false ->
     run = if eq_str code "ExpiredToken"
           then (Raised (new_exception AWSCredentialError error_msg),
                 mk_world (err ++ error_msg ++ newline) c')
           else (Raised e, mk_world err c'))
  /\
  (forall e (code closed : value) c',
     created_or_exists group = true ->
     stream = Raised e ->
     isinstance e ClientError = true ->
     response_error_code e = Returned code ->
     eq_str code "ResourceAlreadyExistsException" = false ->
     external (Aexit (Client "logs") (Some e)) c4 = (Returned closed, c') ->
     truthy closed = false ->
     run = if eq_str code "ExpiredToken"
           then (Raised (new_exception AWSCredentialError error_msg),
                 mk_world (err ++ error_msg ++ newline) c')
           else (Raised e, mk_world err c')).
Proof.
  intros Hbind Hsession Henter Hgroup Hstream run error_msg.
  pose proof (put_cloudwatch_log_event_block _ _ _ _ err _ _ _ _ _
                Hbind Hsession Henter) as Hblock.
  subst run error_msg. repeat split.
  - intros timestamp put closed c5 c6 c7 Hg Hs Htime Hput Hexit.
    apply wrapper_of_returned. rewrite Hblock.
    destruct (creation_tolerated _ _ _ err _ _ _ Hgroup Hg) as [v1 H1].
    destruct (creation_tolerated _ _ _ err _ _ _ Hstream Hs) as [v2 H2].
    run_step. run_step. run_step. run_step. unfold ret.
    apply (leave_returned _ _ _ _ _ _ _ _ Hexit).
  - intros e code closed c' -> Hcli Hcode Hne Hexit Hfalse.
    apply (wrapper_of_client_error _ _ _ _ (mk_world err c') _);
      [|exact Hcli|exact Hcode].
    rewrite Hblock.
    erewrite bind_raised by (eapply creation_refused; eassumption).
    apply (leave_raised _ _ _ _ _ _ _ _ Hexit Hfalse).
  - intros e code closed c' Hg -> Hcli Hcode Hne Hexit Hfalse.
    apply (wrapper_of_client_error _ _ _ _ (mk_world err c') _);
      [|exact Hcli|exact Hcode].
    rewrite Hblock.
    destruct (creation_tolerated _ _ _ err _ _ _ Hgroup Hg) as [v1 H1].
    run_step.
    erewrite bind_raised by (eapply creation_refused; eassumption).
    apply (leave_raised _ _ _ _ _ _ _ _ Hexit Hfalse).
Qed.

End DecoratedOperations.

(** [put_cloudwatch_log_event("app", "web", "hello")] under [wrapper]: the
    group and the stream exist already; the provider refuses to create the
    group; the credentials have expired. *)
Lemma put_cloudwatch_log_event_under_wrapper_witness :
  (exists served,
     wrapper bare_environ
       (put_cloudwatch_log_event_def bare_environ
          (recording existing_log_stream))
       log_event_arguments (mk_world "" [])
     = (Returned (Data VNone), mk_world "" served))
  /\
  (exists served,
     wrapper bare_environ
       (put_cloudwatch_log_event_def bare_environ
          (recording logs_access_denied))
       log_event_arguments (mk_world "" [])
     = (Raised (client_error "AccessDeniedException"
                  "User is not authorized to perform this action"
                  "create_log_group"),
        mk_world "" served))
  /\
  (exists served,
     wrapper bare_environ
       (put_cloudwatch_log_event_def bare_environ
          (recording
             (answering "create_log_group" (Raised expired_token_error))))
       log_event_arguments (mk_world "" [])
     = (Raised (new_exception AWSCredentialError
                  ("❌ Temporary credentials expired!" ++ newline ++
                   "Please run: aws sso login --profile my-dev")),
        mk_world ("❌ Temporary credentials expired!" ++ newline ++
                  "Please run: aws sso login --profile my-dev" ++ newline)
          served)).
Proof.
  split; [|split].
  - edestruct (put_cloudwatch_log_event_under_wrapper journal bare_environ
                 (recording existing_log_stream) log_event_arguments
                 (VStr "app") (VStr "web") (VStr "hello") "" [])
      as (Hdone & _ & _); [reflexivity ..|].
    eexists. eapply Hdone; reflexivity.
  - edestruct (put_cloudwatch_log_event_under_wrapper journal bare_environ
                 (recording logs_access_denied) log_event_arguments
                 (VStr "app") (VStr "web") (VStr "hello") "" [])
      as (_ & Hgroup & _); [reflexivity ..|].
    eexists.
    exact (Hgroup _ (VStr "AccessDeniedException") VNone _
             eq_refl eq_refl eq_refl eq_refl eq_refl eq_refl).
  - edestruct (put_cloudwatch_log_event_under_wrapper journal bare_environ
                 (recording
                    (answering "create_log_group" (Raised expired_token_error)))
                 log_event_arguments
                 (VStr "app") (VStr "web") (VStr "hello") "" [])
      as (_ & Hgroup & _); [reflexivity ..|].
    eexists.
    exact (Hgroup _ (VStr "ExpiredToken") VNone _
             eq_refl eq_refl eq_refl eq_refl eq_refl eq_refl).
Defined.
